(** * SuperOrchestrator: a shallow embedding of
      [src/services/super_orchestrator cl.py]

    The orchestrator runs twelve analysis phases in a fixed order, each
    phase consulting optional collaborators, and keeps a per-session
    execution record.  Python values are embedded as [pyval], code that
    may raise returns a [result], and everything the code mutates is
    threaded explicitly:

    - the orchestrator instance ([self]) is the record [orch];
    - whatever lives outside the orchestrator (the collaborators' own
      state, the system clock, the persistence sink) is an abstract
      world [W].

    Conventions of the embedding, all stated where they are used:
    logging is not modelled; [threading.Lock] protects single statements
    and is transparent to a sequential run; exceptions are the ones
    [except Exception] catches and are identified with their [str(e)];
    dictionaries have string keys and keep insertion order; a text is
    the sequence of its UTF-8 bytes; floats are read as exact
    rationals. *)

From Stdlib Require Import ZArith QArith Qminmax String List.
From stdpp Require Import gmap strings pretty.
Import ListNotations.

Close Scope Q_scope.
Open Scope string_scope.
Open Scope Z_scope.

(** ** Python values *)

Unset Elimination Schemes.
Inductive pyval : Type :=
| PNone
| PBool (b : bool)
| PInt (z : Z)
| PFloat (q : Q)
| PStr (s : string)
| PList (l : list pyval)
| PDict (d : list (string * pyval)).
Set Elimination Schemes.

(** [bool(v)] *)
Definition truthy (v : pyval) : bool :=
  match v with
  | PNone => false
  | PBool b => b
  | PInt z => negb (z =? 0)
  | PFloat q => negb (Qeq_bool q 0)
  | PStr s => negb (String.eqb s "")
  | PList l => match l with [] => false | _ => true end
  | PDict d => match d with [] => false | _ => true end
  end.

(** [type(v).__name__] *)
Definition type_name (v : pyval) : string :=
  match v with
  | PNone => "NoneType"
  | PBool _ => "bool"
  | PInt _ => "int"
  | PFloat _ => "float"
  | PStr _ => "str"
  | PList _ => "list"
  | PDict _ => "dict"
  end.

(** ** Outcomes: a value or a raised exception *)

Definition exn := string.

Inductive result (A : Type) : Type :=
| Ret (a : A)
| Raise (e : exn).
Arguments Ret {A} a.
Arguments Raise {A} e.

Definition is_Ret {A} (r : result A) : bool :=
  match r with Ret _ => true | Raise _ => false end.

(** Association-list dictionaries: first binding of a key wins. *)
Fixpoint assoc_get (d : list (string * pyval)) (k : string) : option pyval :=
  match d with
  | [] => None
  | (k', v) :: d' => if String.eqb k' k then Some v else assoc_get d' k
  end.

(** [d.get(k, default)] on a dictionary *)
Definition assoc_default (d : list (string * pyval)) (k : string)
    (default : pyval) : pyval :=
  match assoc_get d k with
  | Some x => x
  | None => default
  end.

(** [d[k] = v]: an existing key keeps its place. *)
Fixpoint assoc_set (d : list (string * pyval)) (k : string) (v : pyval)
  : list (string * pyval) :=
  match d with
  | [] => [(k, v)]
  | (k', v') :: d' =>
      if String.eqb k' k then (k, v) :: d' else (k', v') :: assoc_set d' k v
  end.

(** [v.get(k, default)]: only dictionaries have a [get] attribute. *)
Definition py_get (v : pyval) (k : string) (default : pyval) : result pyval :=
  match v with
  | PDict d => Ret (assoc_default d k default)
  | _ => Raise ("'" ++ type_name v ++ "' object has no attribute 'get'")
  end.

(** Reading a key of a value known to be a mapping; [None] when the value
    is not a mapping or lacks the key.  Used in statements only. *)
Definition field (v : pyval) (k : string) : option pyval :=
  match v with
  | PDict d => assoc_get d k
  | _ => None
  end.

(** A text is held as its UTF-8 bytes.  A byte [10xxxxxx] continues the
    code point begun by an earlier byte. *)
Definition is_continuation (c : Ascii.ascii) : bool :=
  match c with
  | Ascii.Ascii _ _ _ _ _ _ b6 b7 => b7 && negb b6
  end.

(** The continuation bytes a text starts with, and the code points that
    follow them, each as the text of its bytes. *)
Fixpoint split_points (s : string) : string * list string :=
  match s with
  | EmptyString => (EmptyString, [])
  | String c rest =>
      let '(cont, points) := split_points rest in
      if is_continuation c then (String c cont, points)
      else (EmptyString, String c cont :: points)
  end.

(** The characters of a text, as Python's [len] counts them and as a
    loop over the text yields them. *)
Definition code_points (s : string) : list string := (split_points s).2.

(** [len(v)] *)
Definition py_len (v : pyval) : result pyval :=
  match v with
  | PStr s => Ret (PInt (Z.of_nat (List.length (code_points s))))
  | PList l => Ret (PInt (Z.of_nat (List.length l)))
  | PDict d => Ret (PInt (Z.of_nat (List.length d)))
  | _ => Raise ("object of type '" ++ type_name v ++ "' has no len()")
  end.

(** [a or b] on already evaluated operands *)
Definition py_or (a b : pyval) : pyval := if truthy a then a else b.

(** [v == 'lit'] for a string literal *)
Definition py_eq_str (v : pyval) (lit : string) : bool :=
  match v with
  | PStr s => String.eqb s lit
  | _ => false
  end.

(** [list(d.keys())] *)
Definition dict_keys (d : list (string * pyval)) : pyval :=
  PList (map (fun kv => PStr (fst kv)) d).

(** ** The state-and-exception monad

    A computation over a state [S] returns an outcome together with the
    state it leaves behind; effects performed before an exception is
    raised persist, as in Python. *)

Definition M (S A : Type) : Type := S -> result A * S.

Definition ret {S A} (a : A) : M S A := fun s => (Ret a, s).

Definition raise {S A} (e : exn) : M S A := fun s => (Raise e, s).

Definition bind {S A B} (m : M S A) (k : A -> M S B) : M S B :=
  fun s =>
    match m s with
    | (Ret a, s') => k a s'
    | (Raise e, s') => (Raise e, s')
    end.

(** [try: m except Exception as e: h e] *)
Definition try_catch {S A} (m : M S A) (h : exn -> M S A) : M S A :=
  fun s =>
    match m s with
    | (Ret a, s') => (Ret a, s')
    | (Raise e, s') => h e s'
    end.

(** A pure operation that may raise, run inside the monad. *)
Definition lift {S A} (r : result A) : M S A := fun s => (r, s).

Notation "'let*' x ':=' m 'in' k" := (bind m (fun x => k))
  (at level 10, x name, m at level 100, k at level 200).

(** ** Collaborators and the module environment

    A collaborator is an object whose attributes are looked up by name
    ([hasattr] / [getattr]); calling one of its methods may change the
    world and may raise.  Keyword arguments are passed in the order in
    which the call site writes them.  A method receives values: the
    Python code hands its dictionaries over by reference, and what is
    proved of a sequence of phases holds for collaborators that do not
    edit the dictionaries they are given. *)

Definition method (W : Type) : Type := list pyval -> M W pyval.

Record service (W : Type) : Type := {
  svc_class : string;
  attr : string -> option (method W)
}.
Arguments svc_class {W} _.
Arguments attr {W} _ _.

(** What an import left in a module-level name that [__init__] tests
    with [if name:]: the thing the name holds and its truth value. *)
Record binding (A : Type) : Type := { truth : bool; held : A }.
Arguments truth {A} _.
Arguments held {A} _.

(** The module-level names the orchestrator file binds at import time.
    Each optional import is [None] when the import failed.  Five names
    hold an object; five hold a class, whose call runs its constructor
    in the world and may raise.  The search coordinator is only used by
    the web research, under [if enhanced_search_coordinator:], and is
    read through that test: [None] when the import failed or the object
    is falsy. *)
Record module_env (W : Type) : Type := {
  enhanced_search_coordinator : option (service W);
  ai_manager : option (binding (service W));
  content_extractor : option (binding (service W));
  mental_drivers_architect : option (binding (service W));
  visual_proofs_generator : option (binding (service W));
  AntiObjectionSystem : option (binding (M W (service W)));
  PrePitchArchitect : option (binding (M W (service W)));
  FuturePredictionEngine : option (binding (M W (service W)));
  mcp_supadata_manager : option (binding (service W));
  AlibabaWebSailorAgent : option (binding (M W (service W)));
  EnhancedReportGenerator : option (binding (M W (service W)));
  (** [salvar_erro(nome, erro, contexto)] *)
  salvar_erro : string -> exn -> pyval -> M W unit;
  (** [time.time()] *)
  time_time : W -> Q * W;
  (** [datetime.now().isoformat()] *)
  datetime_now_isoformat : W -> string * W;
  (** the text an f-string produces for a value that is not a [str] *)
  format_value : pyval -> string;
  (** the text of [f"{x:.0f}"] *)
  format_fixed0 : Q -> string
}.
Arguments enhanced_search_coordinator {W} _.
Arguments ai_manager {W} _.
Arguments content_extractor {W} _.
Arguments mental_drivers_architect {W} _.
Arguments visual_proofs_generator {W} _.
Arguments AntiObjectionSystem {W} _.
Arguments PrePitchArchitect {W} _.
Arguments FuturePredictionEngine {W} _.
Arguments mcp_supadata_manager {W} _.
Arguments AlibabaWebSailorAgent {W} _.
Arguments EnhancedReportGenerator {W} _.
Arguments salvar_erro {W} _ _ _ _ _.
Arguments time_time {W} _ _.
Arguments datetime_now_isoformat {W} _ _.
Arguments format_value {W} _ _.
Arguments format_fixed0 {W} _ _.

(** ** The orchestrator instance *)

(** One entry of [self.execution_state]. *)
Record session : Type := {
  status : string;
  start_time : Q;
  components_completed : list pyval;
  errors : list pyval;
  recursion_prevented : Z;
  real_data_only : bool;
  execution_time : option Q
}.

Record orch (W : Type) : Type := {
  services : gmap string (service W);
  execution_state : gmap string session;
  service_status : gmap string pyval;
  _global_recursion_depth : gmap string Z;
  _max_recursion_depth : Z
}.
Arguments services {W} _.
Arguments execution_state {W} _.
Arguments service_status {W} _.
Arguments _global_recursion_depth {W} _.
Arguments _max_recursion_depth {W} _.

(** [if x: self.services[k] = x] *)
Definition register {W} (k : string) (x : option (binding (service W)))
    (m : gmap string (service W)) : gmap string (service W) :=
  match x with
  | Some b => if truth b then <[k := held b]> m else m
  | None => m
  end.

(** [if C: self.services[k] = C()] *)
Definition register_new {W} (k : string)
    (C : option (binding (M W (service W)))) (m : gmap string (service W))
  : M W (gmap string (service W)) :=
  match C with
  | Some b =>
      if truth b then
        let* instance := held b in
        ret (<[k := instance]> m)
      else ret m
  | None => ret m
  end.

(** [SuperOrchestrator.__init__]: the registrations in the order of the
    source; an exception of a constructor leaves [__init__]. *)
Definition SuperOrchestrator_init {W} (env : module_env W) : M W (orch W) :=
  let svcs := register "ai_manager" (ai_manager env) ∅ in
  let svcs := register "content_extractor" (content_extractor env) svcs in
  let svcs := register "mental_drivers" (mental_drivers_architect env) svcs in
  let svcs := register "visual_proofs" (visual_proofs_generator env) svcs in
  let* svcs := register_new "anti_objection" (AntiObjectionSystem env) svcs in
  let* svcs := register_new "pre_pitch" (PrePitchArchitect env) svcs in
  let* svcs :=
    register_new "future_prediction" (FuturePredictionEngine env) svcs in
  let svcs := register "supadata" (mcp_supadata_manager env) svcs in
  let* svcs := register_new "websailor" (AlibabaWebSailorAgent env) svcs in
  let* svcs :=
    register_new "enhanced_report" (EnhancedReportGenerator env) svcs in
  ret {| services := svcs;
         execution_state := ∅;
         service_status := ∅;
         _global_recursion_depth := ∅;
         _max_recursion_depth := 3 |}.

(** ** The twelve phases

    Each phase is a method of the orchestrator that only reads
    [self.services]; it runs in the world monad.  A [return] inside a
    nested [try] is modelled by an optional early result. *)

Section Phases.

Context {W : Type} (env : module_env W).

(** interpolation of a value into an f-string *)
Definition py_str (v : pyval) : string :=
  match v with
  | PStr s => s
  | _ => format_value env v
  end.

(** [svc.name(args)]: the attribute is looked up, then called. *)
Definition call_attr (svc : service W) (name : string) (args : list pyval)
  : M W pyval :=
  match attr svc name with
  | Some m => m args
  | None =>
      raise ("'" ++ svc_class svc ++ "' object has no attribute '" ++ name ++ "'")
  end.

Definition _execute_real_web_search (self : orch W) (data : pyval)
    (session_id : string) : M W pyval :=
  try_catch
    (let* q := lift (py_get data "query" PNone) in
     let* query := (if truthy q then ret q
               else
                 let* seg := lift (py_get data "segmento" (PStr "")) in
                 let* prod := lift (py_get data "produto" (PStr "")) in
                 ret (PStr ("mercado " ++ py_str seg ++ " " ++ py_str prod
                            ++ " Brasil 2024"))) in
     (* 1. websailor first *)
     let* r1 := match services self !! "websailor" with
           | Some ws =>
               try_catch
                 (let* websailor_results :=
                    call_attr ws "navigate_and_research_deep"
                      [query; data; PInt 20; PInt 3; PStr session_id] in
                  if truthy websailor_results then
                    let* st := lift (py_get websailor_results "status" PNone) in
                    if py_eq_str st "success"
                    then ret (Some websailor_results)
                    else ret None
                  else ret None)
                 (fun _ => ret None)
           | None => ret None
           end in
     match r1 with
     | Some v => ret v
     | None =>
         (* 2. enhanced search coordinator *)
         let* r2 := match enhanced_search_coordinator env with
               | Some esc =>
                   try_catch
                     (let* search_results :=
                        call_attr esc "perform_search" [query; PStr session_id] in
                      if truthy search_results then
                        ret (Some (PDict [("status", PStr "success");
                                          ("processed_results", search_results);
                                          ("source", PStr "enhanced_search")]))
                      else ret None)
                     (fun _ => ret None)
               | None => ret None
               end in
         match r2 with
         | Some v => ret v
         | None =>
             ret (PDict [("status", PStr "fallback");
                         ("processed_results", PList []);
                         ("source", PStr "fallback_basic")])
         end
     end)
    (fun e =>
       ret (PDict [("status", PStr "error");
                   ("processed_results", PList []);
                   ("error", PStr e)])).

Definition _execute_real_social_analysis (self : orch W) (data : pyval)
    (session_id : string) : M W pyval :=
  try_catch
    (match services self !! "supadata" with
     | None => ret (PDict [("status", PStr "unavailable"); ("total_posts", PInt 0)])
     | Some supadata =>
         let* seg := lift (py_get data "segmento" (PStr "")) in
         let* prod := lift (py_get data "produto" (PStr "")) in
         let* social_results :=
           call_attr supadata "search_all_platforms"
             [PStr (py_str seg ++ " " ++ py_str prod); PInt 15] in
         let* total := (if truthy social_results then
                     let* posts := lift (py_get social_results "all_posts" (PList [])) in
                     lift (py_len posts)
                   else ret (PInt 0)) in
         ret (PDict [("status", PStr "success");
                     ("platforms_data", py_or social_results (PDict []));
                     ("total_posts", total)])
     end)
    (fun e =>
       ret (PDict [("status", PStr "error"); ("total_posts", PInt 0);
                   ("error", PStr e)])).

Definition _execute_real_avatar_analysis (self : orch W)
    (web_data social_data project_data : pyval) (session_id : string)
  : M W pyval :=
  try_catch
    (let* seg := lift (py_get project_data "segmento" (PStr "Profissional")) in
     let* results := lift (py_get web_data "processed_results" (PList [])) in
     let* n := lift (py_len results) in
     ret (PDict
       [("status", PStr "success");
        ("nome_ficticio", PStr ("Avatar " ++ py_str seg));
        ("dores_viscerais_unificadas",
           PList [PStr "Falta de tempo"; PStr "Dificuldade em decidir"]);
        ("desejos_secretos_unificados",
           PList [PStr "Reconhecimento"; PStr "Estabilidade"]);
        ("objecoes_principais",
           PList [PStr "Preço alto"; PStr "Falta de confiança"]);
        ("fonte_dados", PDict [("data_real", PBool true); ("web_sources", n)])]))
    (fun e => ret (PDict [("status", PStr "error"); ("error", PStr e)])).

Definition _execute_real_mental_drivers (self : orch W)
    (avatar_data web_data project_data : pyval) (session_id : string)
  : M W pyval :=
  try_catch
    (match services self !! "mental_drivers" with
     | None =>
         ret (PDict [("status", PStr "fallback"); ("drivers_customizados", PList [])])
     | Some svc =>
         let* seg := lift (py_get project_data "segmento" PNone) in
         let* prod := lift (py_get project_data "produto" PNone) in
         let* drivers_system :=
           call_attr svc "create_complete_mental_drivers_system"
             [avatar_data;
              PDict [("segmento", seg); ("produto", prod);
                     ("session_id", PStr session_id)]] in
         ret (py_or drivers_system
                (PDict [("status", PStr "fallback");
                        ("drivers_customizados", PList [])]))
     end)
    (fun e =>
       ret (PDict [("status", PStr "error"); ("drivers_customizados", PList []);
                   ("error", PStr e)])).

(** The candidate names of the visual-proofs collaborator, in the order
    the code lists them. *)
Definition visual_proofs_methods : list string :=
  ["generate_visual_proofs"; "create_proofs"; "generate_proofs";
   "create_visual_proofs"; "build_proofs"].

(** The [for method_name in methods_to_try] loop of the visual-proofs
    phase.  The loop variable [visual_proofs] starts as [None]; the first
    call that returns without raising assigns it and [break]s, whatever
    the value is. *)
Fixpoint visual_proofs_loop (service : service W)
    (drivers_data project_data : pyval) (session_id : string)
    (methods_to_try : list string) : M W pyval :=
  match methods_to_try with
  | [] => ret PNone
  | method_name :: rest =>
      match attr service method_name with
      | None => visual_proofs_loop service drivers_data project_data session_id rest
      | Some method =>
          let* r :=
            try_catch
              (let* seg := lift (py_get project_data "segmento" (PStr "")) in
               let* prod := lift (py_get project_data "produto" (PStr "")) in
               let* v := method [drivers_data; seg; prod; PStr session_id] in
               ret (Some v))
              (fun _ => ret None) in
          match r with
          | Some v => ret v
          | None =>
              visual_proofs_loop service drivers_data project_data session_id rest
          end
      end
  end.

Definition _execute_real_visual_proofs (self : orch W)
    (drivers_data project_data : pyval) (session_id : string) : M W pyval :=
  try_catch
    (match services self !! "visual_proofs" with
     | None => ret (PDict [("status", PStr "fallback"); ("proofs", PList [])])
     | Some service =>
         let* visual_proofs :=
           visual_proofs_loop service drivers_data project_data session_id
             visual_proofs_methods in
         if truthy visual_proofs then ret visual_proofs
         else
           let* seg := lift (py_get project_data "segmento" (PStr "mercado")) in
           let* prod := lift (py_get project_data "produto" (PStr "produto")) in
           ret (PDict
             [("status", PStr "fallback");
              ("proofs",
                 PList [PDict
                   [("tipo", PStr "estatistica");
                    ("titulo", PStr ("Dados sobre " ++ py_str seg));
                    ("descricao",
                       PStr ("Análise baseada nos drivers para " ++ py_str prod));
                    ("fonte", PStr "Análise própria")]])])
     end)
    (fun e =>
       ret (PDict [("status", PStr "error"); ("proofs", PList []);
                   ("error", PStr e)])).

(** Iterating a value in a comprehension.  A string yields its
    one-character pieces. *)
Definition py_iter (v : pyval) : result (list pyval) :=
  match v with
  | PList l => Ret l
  | PDict d => Ret (map (fun kv => PStr (fst kv)) d)
  | PStr s => Ret (map PStr (code_points s))
  | _ => Raise ("'" ++ type_name v ++ "' object is not iterable")
  end.

Definition anti_objection_methods : list string :=
  ["create_anti_objection_system"; "create_system"; "generate_system";
   "build_system"; "create_anti_objection"; "generate_anti_objection_system";
   "process_objections"].

(** The candidate loop shared in shape by the anti-objection phase and
    the final report: a call that returns a truthy value [return]s it
    from the enclosing method; a falsy value or an exception moves on to
    the next name. *)
Fixpoint first_truthy_loop (service : service W) (args : list pyval)
    (methods_to_try : list string) : M W (option pyval) :=
  match methods_to_try with
  | [] => ret None
  | method_name :: rest =>
      match attr service method_name with
      | None => first_truthy_loop service args rest
      | Some method =>
          let* r :=
            try_catch
              (let* result := method args in
               if truthy result then ret (Some result) else ret None)
              (fun _ => ret None) in
          match r with
          | Some v => ret (Some v)
          | None => first_truthy_loop service args rest
          end
      end
  end.

Definition _execute_real_anti_objection (self : orch W)
    (drivers_data avatar_data data : pyval) (session_id : string) : M W pyval :=
  try_catch
    (match services self !! "anti_objection" with
     | None =>
         ret (PDict [("status", PStr "fallback"); ("sistema_anti_objecao", PDict [])])
     | Some service =>
         let* produto := lift (py_get data "produto" (PStr "")) in
         let anti_objection_data :=
           PDict [("avatar", avatar_data); ("produto", produto);
                  ("drivers", drivers_data)] in
         let* r :=
           first_truthy_loop service [anti_objection_data] anti_objection_methods in
         match r with
         | Some result => ret result
         | None =>
             let* objections :=
               lift (py_get avatar_data "objecoes_principais"
                       (PList [PStr "Preço alto"; PStr "Falta de confiança"])) in
             let* objs := lift (py_iter objections) in
             ret (PDict
               [("status", PStr "fallback");
                ("sistema_anti_objecao",
                   PDict
                     [("objecoes_mapeadas", objections);
                      ("respostas_preparadas",
                         PList (map (fun obj => PStr ("Resposta para: " ++ py_str obj))
                                    objs));
                      ("estrategias",
                         PList [PStr "Demonstração de valor"; PStr "Prova social";
                                PStr "Garantias"])])])
         end
     end)
    (fun e =>
       ret (PDict [("status", PStr "error"); ("sistema_anti_objecao", PDict []);
                   ("error", PStr e)])).

Definition _execute_real_pre_pitch (self : orch W)
    (drivers_data anti_objection_data project_data : pyval)
    (session_id : string) : M W pyval :=
  try_catch
    (match services self !! "pre_pitch" with
     | None =>
         ret (PDict [("status", PStr "fallback"); ("sequencias_pre_pitch", PList [])])
     | Some svc =>
         let* result :=
           call_attr svc "create_system"
             [drivers_data; anti_objection_data; project_data] in
         ret (py_or result
                (PDict [("status", PStr "fallback");
                        ("sequencias_pre_pitch", PList [])]))
     end)
    (fun e =>
       ret (PDict [("status", PStr "error"); ("sequencias_pre_pitch", PList []);
                   ("error", PStr e)])).

Definition _execute_real_future_predictions (self : orch W)
    (web_data social_data : pyval) (session_id : string) : M W pyval :=
  try_catch
    (match services self !! "future_prediction" with
     | None => ret (PDict [("status", PStr "fallback"); ("predicoes", PList [])])
     | Some svc =>
         let* result :=
           call_attr svc "create_predictions"
             [web_data; social_data; PStr session_id] in
         ret (py_or result
                (PDict [("status", PStr "fallback"); ("predicoes", PList [])]))
     end)
    (fun e =>
       ret (PDict [("status", PStr "error"); ("predicoes", PList []);
                   ("error", PStr e)])).

Definition _execute_real_competition_analysis (self : orch W)
    (web_data project_data : pyval) (session_id : string) : M W pyval :=
  try_catch
    (let* seg := lift (py_get project_data "segmento" (PStr "mercado")) in
     let* results := lift (py_get web_data "processed_results" (PList [])) in
     let* n := lift (py_len results) in
     ret (PDict
       [("status", PStr "success");
        ("analise_completa",
           PStr ("Análise de concorrência para " ++ py_str seg));
        ("fontes_analisadas", n)]))
    (fun e => ret (PDict [("status", PStr "error"); ("error", PStr e)])).

Definition _execute_real_insights_extraction (self : orch W)
    (web_data social_data : pyval) (session_id : string) : M W pyval :=
  try_catch
    (let* results := lift (py_get web_data "processed_results" (PList [])) in
     let* n := lift (py_len results) in
     let* posts := lift (py_get social_data "total_posts" (PInt 0)) in
     ret (PDict
       [("status", PStr "success");
        ("insights_completos", PStr "Insights baseados nos dados coletados");
        ("fontes_utilizadas",
           PDict [("web_sources", n); ("social_posts", posts)])]))
    (fun e => ret (PDict [("status", PStr "error"); ("error", PStr e)])).

Definition _execute_real_keywords_analysis (self : orch W)
    (web_data avatar_data : pyval) (session_id : string) : M W pyval :=
  try_catch
    (let* results := lift (py_get web_data "processed_results" (PList [])) in
     let* n := lift (py_len results) in
     let* nome := lift (py_get avatar_data "nome_ficticio" PNone) in
     ret (PDict
       [("status", PStr "success");
        ("analise_completa", PStr "Palavras-chave estratégicas identificadas");
        ("fonte_dados",
           PDict [("web_sources_analyzed", n);
                  ("avatar_included", PBool (truthy nome))])]))
    (fun e => ret (PDict [("status", PStr "error"); ("error", PStr e)])).

Definition _execute_real_sales_funnel (self : orch W)
    (drivers_data avatar_data : pyval) (session_id : string) : M W pyval :=
  try_catch
    (let* drivers := lift (py_get drivers_data "drivers_customizados" (PList [])) in
     let* n := lift (py_len drivers) in
     let* nome := lift (py_get avatar_data "nome_ficticio" PNone) in
     ret (PDict
       [("status", PStr "success");
        ("funil_otimizado", PStr "Funil otimizado com base nos dados coletados");
        ("dados_base",
           PDict [("drivers_applied", n);
                  ("avatar_based", PBool (truthy nome))])]))
    (fun e => ret (PDict [("status", PStr "error"); ("error", PStr e)])).

(** Reading the clock. *)
Definition now : M W Q :=
  fun w => let (t, w') := time_time env w in (Ret t, w').

Definition now_isoformat : M W string :=
  fun w => let (t, w') := datetime_now_isoformat env w in (Ret t, w').

(** [list(v.keys())] *)
Definition py_keys (v : pyval) : result pyval :=
  match v with
  | PDict d => Ret (dict_keys d)
  | _ => Raise ("'" ++ type_name v ++ "' object has no attribute 'keys'")
  end.

Definition report_methods : list string :=
  ["generate_report"; "create_report"; "build_report";
   "generate_enhanced_report"; "create_enhanced_report"; "process_report";
   "compile_report"].

(** [len(d.get(k1, {}).get(k2, []))] *)
Definition len_of (d : pyval) (k1 k2 : string) : result pyval :=
  match py_get d k1 (PDict []) with
  | Raise e => Raise e
  | Ret x =>
      match py_get x k2 (PList []) with
      | Raise e => Raise e
      | Ret y => py_len y
      end
  end.

(** [bool(d.get(k1, {}).get(k2))] *)
Definition bool_of (d : pyval) (k1 k2 : string) : result pyval :=
  match py_get d k1 (PDict []) with
  | Raise e => Raise e
  | Ret x =>
      match py_get x k2 PNone with
      | Raise e => Raise e
      | Ret y => Ret (PBool (truthy y))
      end
  end.

Definition _generate_final_report (self : orch W)
    (complete_analysis_data : pyval) (session_id : string) : M W pyval :=
  try_catch
    (let* r := match services self !! "enhanced_report" with
               | Some service =>
                   first_truthy_loop service
                     [complete_analysis_data; PStr session_id] report_methods
               | None => ret None
               end in
     match r with
     | Some result => ret result
     | None =>
         let* timestamp := now_isoformat in
         let* keys := lift (py_keys complete_analysis_data) in
         let* web_sources :=
           lift (len_of complete_analysis_data
                   "pesquisa_web_massiva" "processed_results") in
         let* social := lift (py_get complete_analysis_data
                                "analise_redes_sociais" (PDict [])) in
         let* social_posts := lift (py_get social "total_posts" (PInt 0)) in
         let* avatar_criado :=
           lift (bool_of complete_analysis_data
                   "avatar_ultra_detalhado" "nome_ficticio") in
         let* drivers_gerados :=
           lift (len_of complete_analysis_data
                   "drivers_mentais_customizados" "drivers_customizados") in
         let* provas_visuais :=
           lift (len_of complete_analysis_data "provas_visuais_arsenal" "proofs") in
         let* anti :=
           lift (bool_of complete_analysis_data
                   "sistema_anti_objecao" "sistema_anti_objecao") in
         let* funil :=
           lift (bool_of complete_analysis_data
                   "funil_vendas_otimizado" "funil_otimizado") in
         ret (PDict
           [("status", PStr "basic");
            ("session_id", PStr session_id);
            ("timestamp", PStr timestamp);
            ("resumo_executivo",
               PStr "Análise completa finalizada com todos os componentes");
            ("componentes_analisados", keys);
            ("dados_coletados",
               PDict [("web_sources", web_sources);
                      ("social_posts", social_posts);
                      ("avatar_criado", avatar_criado);
                      ("drivers_gerados", drivers_gerados);
                      ("provas_visuais", provas_visuais);
                      ("sistema_anti_objecao", anti);
                      ("funil_otimizado", funil)]);
            ("report_generator", PStr "basic_fallback_enhanced")])
     end)
    (fun e =>
       let* timestamp := now_isoformat in
       ret (PDict [("status", PStr "error");
                   ("session_id", PStr session_id);
                   ("timestamp", PStr timestamp);
                   ("error", PStr e);
                   ("report_generator", PStr "error_fallback")])).

(** ** The top-level run

    The run mutates the orchestrator, so it lives in the monad over the
    pair of the instance and the world.  The progress callback is a
    caller-supplied closure: it may do anything a caller can do,
    including calling back into the orchestrator, hence it acts on the
    same pair. *)

Definition callback : Type := Z -> string -> M (orch W * W) unit.

(** A world computation run by a method of [self]. *)
Definition with_self {A} (f : orch W -> M W A) : M (orch W * W) A :=
  fun '(self, w) => let (r, w') := f self w in (r, (self, w')).

Definition modify_self (f : orch W -> orch W) : M (orch W * W) unit :=
  fun '(self, w) => (Ret tt, (f self, w)).

(** [self._global_recursion_depth.clear()] *)
Definition clear_recursion_depth (self : orch W) : orch W :=
  {| services := services self;
     execution_state := execution_state self;
     service_status := service_status self;
     _global_recursion_depth := ∅;
     _max_recursion_depth := _max_recursion_depth self |}.

Definition set_execution_state (es : gmap string session) (self : orch W)
  : orch W :=
  {| services := services self;
     execution_state := es;
     service_status := service_status self;
     _global_recursion_depth := _global_recursion_depth self;
     _max_recursion_depth := _max_recursion_depth self |}.

(** The record a run stores for its session when it starts. *)
Definition running_session (t : Q) : session :=
  {| status := "running";
     start_time := t;
     components_completed := [];
     errors := [];
     recursion_prevented := 0;
     real_data_only := true;
     execution_time := None |}.

(** [self.execution_state[session_id] = {...}] *)
Definition begin_session (session_id : string) (t : Q) (self : orch W) : orch W :=
  set_execution_state
    (<[session_id := running_session t]> (execution_state self)) self.

Definition mark_completed (dt : Q) (s : session) : session :=
  {| status := "completed";
     start_time := start_time s;
     components_completed := components_completed s;
     errors := errors s;
     recursion_prevented := recursion_prevented s;
     real_data_only := real_data_only s;
     execution_time := Some dt |}.

(** [self.execution_state[session_id]['status'] = 'completed'] and the
    assignment of ['execution_time']; subscripting a missing session
    raises [KeyError]. *)
Definition complete_session (session_id : string) (dt : Q)
  : M (orch W * W) unit :=
  fun '(self, w) =>
    match execution_state self !! session_id with
    | Some s =>
        (Ret tt,
         (set_execution_state
            (<[session_id := mark_completed dt s]> (execution_state self)) self,
          w))
    | None => (Raise ("'" ++ session_id ++ "'"), (self, w))
    end.

(** [if progress_callback: progress_callback(i, msg)] *)
Definition notify (progress_callback : option callback) (i : Z) (msg : string)
  : M (orch W * W) unit :=
  match progress_callback with
  | Some cb => cb i msg
  | None => ret tt
  end.

(** The dictionary bound to [complete_analysis_data] in the run. *)
Definition consolidated (session_id : string)
    (data web avatar drivers visual anti pre_pitch predictions competition
     insights keywords funnel social : pyval) : pyval :=
  PDict [("session_id", PStr session_id);
         ("projeto_dados", data);
         ("pesquisa_web_massiva", web);
         ("avatar_ultra_detalhado", avatar);
         ("drivers_mentais_customizados", drivers);
         ("provas_visuais_arsenal", visual);
         ("sistema_anti_objecao", anti);
         ("pre_pitch_invisivel", pre_pitch);
         ("predicoes_futuro_detalhadas", predictions);
         ("analise_concorrencia", competition);
         ("insights_exclusivos", insights);
         ("palavras_chave_estrategicas", keywords);
         ("funil_vendas_otimizado", funnel);
         ("analise_redes_sociais", social)].

(** The dictionary returned by a run that reaches its end. *)
Definition success_result (session_id : string) (execution_time : Q)
    (final_report : pyval) : pyval :=
  PDict
    [("success", PBool true);
     ("session_id", PStr session_id);
     ("execution_time", PFloat execution_time);
     ("total_components_executed", PInt 12);
     ("report", final_report);
     ("data_validation",
        PDict [("all_data_real", PBool true);
               ("zero_simulated_data", PBool true);
               ("zero_fallbacks_used", PBool true);
               ("components_with_real_data", PInt 12)]);
     ("sync_status", PStr "PERFECT_SYNC_REAL_DATA_ONLY")].

(** The dictionary returned by the [except] branch of a run. *)
Definition failure_result (session_id : string) (e : exn) : pyval :=
  PDict [("success", PBool false);
         ("session_id", PStr session_id);
         ("error", PStr e);
         ("emergency_mode", PBool true)].

Definition execute_synchronized_analysis (data : pyval) (session_id : string)
    (progress_callback : option callback) : M (orch W * W) pyval :=
  if negb (truthy data) then
    ret (failure_result session_id
           "Dados de entrada obrigatórios não fornecidos")
  else
    try_catch
      (let* t0 := with_self (fun _ => now) in
       let* _ := modify_self clear_recursion_depth in
       let* _ := modify_self (begin_session session_id t0) in
       let* _ := notify progress_callback 1
                   "🔍 Executando pesquisa web massiva com dados reais..." in
       let* web_research_results :=
         with_self (fun self => _execute_real_web_search self data session_id) in
       let* _ := notify progress_callback 2
                   "📱 Analisando redes sociais com dados reais..." in
       let* social_analysis_results :=
         with_self (fun self => _execute_real_social_analysis self data session_id) in
       let* _ := notify progress_callback 3
                   "👤 Criando avatar ultra-detalhado com dados reais..." in
       let* avatar_results :=
         with_self (fun self =>
           _execute_real_avatar_analysis self web_research_results
             social_analysis_results data session_id) in
       let* _ := notify progress_callback 4
                   "🧠 Gerando drivers mentais customizados com dados reais..." in
       let* drivers_results :=
         with_self (fun self =>
           _execute_real_mental_drivers self avatar_results
             web_research_results data session_id) in
       let* _ := notify progress_callback 5
                   "📸 Criando provas visuais com dados reais..." in
       let* visual_proofs_results :=
         with_self (fun self =>
           _execute_real_visual_proofs self drivers_results data session_id) in
       let* _ := notify progress_callback 6
                   "🛡️ Desenvolvendo sistema anti-objeção com dados reais..." in
       let* anti_objection_results :=
         with_self (fun self =>
           _execute_real_anti_objection self drivers_results avatar_results
             data session_id) in
       let* _ := notify progress_callback 7
                   "🎯 Construindo pré-pitch invisível com dados reais..." in
       let* pre_pitch_results :=
         with_self (fun self =>
           _execute_real_pre_pitch self drivers_results anti_objection_results
             data session_id) in
       let* _ := notify progress_callback 8
                   "🔮 Gerando predições futuras com dados reais..." in
       let* predictions_results :=
         with_self (fun self =>
           _execute_real_future_predictions self web_research_results
             social_analysis_results session_id) in
       let* _ := notify progress_callback 9
                   "⚔️ Analisando concorrência com dados reais..." in
       let* competition_results :=
         with_self (fun self =>
           _execute_real_competition_analysis self web_research_results
             data session_id) in
       let* _ := notify progress_callback 10
                   "💡 Extraindo insights exclusivos com dados reais..." in
       let* insights_results :=
         with_self (fun self =>
           _execute_real_insights_extraction self web_research_results
             social_analysis_results session_id) in
       let* _ := notify progress_callback 11
                   "🎯 Identificando palavras-chave estratégicas com dados reais..." in
       let* keywords_results :=
         with_self (fun self =>
           _execute_real_keywords_analysis self web_research_results
             avatar_results session_id) in
       let* _ := notify progress_callback 12
                   "🎢 Otimizando funil de vendas com dados reais..." in
       let* funnel_results :=
         with_self (fun self =>
           _execute_real_sales_funnel self drivers_results avatar_results
             session_id) in
       let* _ := notify progress_callback 13
                   "📊 Gerando relatório final completo com dados reais..." in
       let complete_analysis_data :=
         consolidated session_id data web_research_results avatar_results
           drivers_results visual_proofs_results anti_objection_results
           pre_pitch_results predictions_results competition_results
           insights_results keywords_results funnel_results
           social_analysis_results in
       let* final_report :=
         with_self (fun self =>
           _generate_final_report self complete_analysis_data session_id) in
       let* t1 := with_self (fun _ => now) in
       let execution_time := (t1 - t0)%Q in
       let* _ := complete_session session_id execution_time in
       ret (success_result session_id execution_time final_report))
      (fun e =>
         let* _ := with_self (fun _ =>
                     salvar_erro env "super_orchestrator_critico" e
                       (PDict [("session_id", PStr session_id)])) in
         let* _ := modify_self clear_recursion_depth in
         ret (failure_result session_id e)).

(** [get_session_progress]: a read of the session map and, for a running
    session, of the clock.  The percentage is the exact rational
    [min(elapsed / 600 * 100, 95)], carried as a float; at the cap
    Python's [min] hands back the integer 95 itself, of the same
    value. *)
Definition get_session_progress (session_id : string) : M (orch W * W) pyval :=
  fun '(self, w) =>
    match execution_state self !! session_id with
    | None => (Ret PNone, (self, w))
    | Some session_state =>
        if String.eqb (status session_state) "running" then
          let (t, w') := time_time env w in
          let elapsed := (t - start_time session_state)%Q in
          let progress := Qmin (elapsed / 600 * 100)%Q 95%Q in
          (Ret (PDict
             [("completed", PBool false);
              ("percentage", PFloat progress);
              ("current_step",
                 PStr ("Processando... (" ++ format_fixed0 env progress ++ "%)"))]),
           (self, w'))
        else if String.eqb (status session_state) "completed" then
          (Ret (PDict [("completed", PBool true); ("percentage", PInt 100)]),
           (self, w))
        else (Ret PNone, (self, w))
    end.

End Phases.

(** ** Concrete scenarios

    A small world for running the code: a clock that advances by one
    second per reading and the list of collaborator methods invoked so
    far. *)

Module Scenario.

Record world : Type := { ticks : Z; calls : list string }.

Definition w0 : world := {| ticks := 0; calls := [] |}.

Definition tick (w : world) : Q * world :=
  (inject_Z (ticks w), {| ticks := ticks w + 1; calls := calls w |}).

Definition record_call (name : string) (w : world) : world :=
  {| ticks := ticks w; calls := calls w ++ [name] |}.

(** A method that records its invocation and then returns or raises. *)
Definition logged (name : string) (r : result pyval) : method world :=
  fun _ w => (r, record_call name w).

Fixpoint find_method (ms : list (string * result pyval)) (n : string)
  : option (method world) :=
  match ms with
  | [] => None
  | (k, r) :: ms' => if String.eqb k n then Some (logged k r) else find_method ms' n
  end.

(** An object of class [cls] exposing exactly the methods of [ms]. *)
Definition obj (cls : string) (ms : list (string * result pyval)) : service world :=
  {| svc_class := cls; attr := find_method ms |}.

(** The module environment in which every optional import failed. *)
Definition bare_env : module_env world :=
  {| enhanced_search_coordinator := None;
     ai_manager := None;
     content_extractor := None;
     mental_drivers_architect := None;
     visual_proofs_generator := None;
     AntiObjectionSystem := None;
     PrePitchArchitect := None;
     FuturePredictionEngine := None;
     mcp_supadata_manager := None;
     AlibabaWebSailorAgent := None;
     EnhancedReportGenerator := None;
     salvar_erro := fun _ _ _ w => (Ret tt, w);
     time_time := tick;
     datetime_now_isoformat := fun w => ("2024-01-01T00:00:00", w);
     format_value := type_name;
     format_fixed0 := fun _ => "0" |}.

(** An orchestrator whose services map is [svcs]. *)
Definition with_services (svcs : gmap string (service world)) : orch world :=
  {| services := svcs;
     execution_state := ∅;
     service_status := ∅;
     _global_recursion_depth := ∅;
     _max_recursion_depth := 3 |}.

(** The orchestrator built when every collaborator is absent: its
    services map is empty. *)
Definition bare : orch world := with_services ∅.

Definition fitness_app : pyval :=
  PDict [("segmento", PStr "fitness"); ("produto", PStr "app")].

(** A progress callback that always raises. *)
Definition failing_callback : callback (W := world) :=
  fun _ _ st => (Raise "callback failed", st).

(** A world whose clock shows [t]. *)
Definition w_at (t : Z) : world := {| ticks := t; calls := [] |}.

(** A mental-drivers collaborator whose record has no [status] key. *)
Definition statusless_drivers : service world :=
  obj "MentalDriversArchitect"
    [("create_complete_mental_drivers_system",
      Ret (PDict [("drivers_customizados", PList [PStr "urgencia"])]))].

(** A visual-proofs collaborator whose first candidate returns an empty
    record while its second candidate returns real proofs. *)
Definition shy_visual_proofs : service world :=
  obj "VisualProofsGenerator"
    [("generate_visual_proofs", Ret (PDict []));
     ("create_proofs",
      Ret (PDict [("status", PStr "success");
                  ("proofs", PList [PStr "grafico"])]))].

(** The same shape for the anti-objection collaborator. *)
Definition shy_anti_objection : service world :=
  obj "AntiObjectionSystem"
    [("create_anti_objection_system", Ret (PDict []));
     ("create_system",
      Ret (PDict [("status", PStr "success");
                  ("sistema_anti_objecao", PDict [("scripts", PInt 3)])]))].





(** A social-data collaborator that finds two posts. *)
Definition two_posts_supadata : service world :=
  obj "MCPSupadataManager"
    [("search_all_platforms",
      Ret (PDict [("all_posts", PList [PStr "p1"; PStr "p2"])]))].

(** An anti-objection collaborator that exposes none of the candidate
    operations. *)
Definition mute_anti_objection : service world := obj "AntiObjectionSystem" [].


(** A mental-drivers collaborator that answers with a bare list. *)
Definition listing_drivers : service world :=
  obj "MentalDriversArchitect"
    [("create_complete_mental_drivers_system",
      Ret (PList [PStr "urgencia"; PStr "escassez"]))].

(** A progress callback that does nothing. *)
Definition quiet_callback : callback (W := world) :=
  fun _ _ st => (Ret tt, st).

(** A visual-proofs collaborator that only exposes the third candidate
    name. *)
Definition late_visual_proofs : service world :=
  obj "VisualProofsGenerator"
    [("generate_proofs",
      Ret (PDict [("status", PStr "success");
                  ("proofs", PList [PStr "grafico"])]))].

(** A module environment in which the AI manager is a falsy object,
    the mental-drivers architect a truthy one, and the anti-objection
    class has a constructor that records its call. *)
Definition staffed_env : module_env world :=
  {| enhanced_search_coordinator := None;
     ai_manager := Some {| truth := false; held := obj "AIManager" [] |};
     content_extractor := None;
     mental_drivers_architect :=
       Some {| truth := true; held := statusless_drivers |};
     visual_proofs_generator := None;
     AntiObjectionSystem :=
       Some {| truth := true;
               held := fun w =>
                 (Ret mute_anti_objection,
                  record_call "AntiObjectionSystem()" w) |};
     PrePitchArchitect := None;
     FuturePredictionEngine := None;
     mcp_supadata_manager := None;
     AlibabaWebSailorAgent := None;
     EnhancedReportGenerator := None;
     salvar_erro := fun _ _ _ w => (Ret tt, w);
     time_time := tick;
     datetime_now_isoformat := fun w => ("2024-01-01T00:00:00", w);
     format_value := type_name;
     format_fixed0 := fun _ => "0" |}.



End Scenario.

(** * ServiceHealthChecker: [src/services/service_health_checker.py]

    The checker tries to import each service module and grades the
    system.  What an [import] statement does is outside the file, so it
    is a parameter: for each import statement of the file, whether
    importing the names it asks for succeeds (and then whether the
    first imported name is truthy), raises [ImportError], or raises
    another exception.  A statement is named by the module it imports
    from.  The one module the file imports from with two different
    statements is [auto_save_manager]: [_check_service_import] asks it
    for [salvar_etapa] and [salvar_erro], [_test_auto_save] for
    [salvar_etapa] only, so the second statement has an outcome of its
    own.  The threshold [0.7] is read as the rational 7/10; the product
    [10 * 0.7] is exactly [7.0] in binary floating point. *)

Module HealthChecker.

Inductive import_outcome : Type :=
| Imported (truthy_value : bool)
| ImportFailed (msg : string)
| ImportRaised (msg : string).

(** The outcome of [from services.<module> import ...], by statement. *)
Definition importer : Type := string → import_outcome.

(** The statement [from services.auto_save_manager import salvar_etapa]
    of [_test_auto_save]. *)
Definition salvar_etapa_only : string := "auto_save_manager: salvar_etapa".

Record checker : Type := {
  services_status : list (string * pyval);
  critical_services : list string;
  optional_services : list string
}.

(** [ServiceHealthChecker.__init__] *)
Definition init : checker :=
  {| services_status := [];
     critical_services := ["ai_manager"; "auto_save_manager"];
     optional_services :=
       ["enhanced_search_coordinator"; "production_search_manager";
        "mental_drivers_architect"; "visual_proofs_generator";
        "anti_objection_system"; "pre_pitch_architect";
        "future_prediction_engine"; "mcp_supadata_manager";
        "alibaba_websailor"; "enhanced_report_generator"] |}.

(** A branch of [_check_service_import] that only imports. *)
Definition import_only (o : import_outcome) : string * string :=
  match o with
  | Imported _ => ("ok", "")
  | ImportFailed e => ("import_error", e)
  | ImportRaised e => ("error", e)
  end.

Definition _check_service_import (imports : importer) (service_name : string)
  : string * string :=
  if String.eqb service_name "ai_manager" then
    match imports "ai_manager" with
    | Imported true => ("ok", "")
    | Imported false => ("error", "Service is None after import")
    | ImportFailed e => ("import_error", e)
    | ImportRaised e => ("error", e)
    end
  else if String.eqb service_name "auto_save_manager" then
    import_only (imports "auto_save_manager")
  else if String.eqb service_name "enhanced_search_coordinator" then
    import_only (imports "enhanced_search_coordinator")
  else if String.eqb service_name "production_search_manager" then
    import_only (imports "production_search_manager")
  else if String.eqb service_name "mental_drivers_architect" then
    import_only (imports "mental_drivers_architect")
  else if String.eqb service_name "visual_proofs_generator" then
    import_only (imports "visual_proofs_generator")
  else if String.eqb service_name "anti_objection_system" then
    import_only (imports "anti_objection_system")
  else if String.eqb service_name "pre_pitch_architect" then
    import_only (imports "pre_pitch_architect")
  else if String.eqb service_name "future_prediction_engine" then
    import_only (imports "future_prediction_engine")
  else if String.eqb service_name "mcp_supadata_manager" then
    import_only (imports "mcp_supadata_manager")
  else if String.eqb service_name "alibaba_websailor" then
    import_only (imports "alibaba_websailor")
  else if String.eqb service_name "enhanced_report_generator" then
    import_only (imports "enhanced_report_generator")
  else ("error", "Unknown service: " ++ service_name).

(** One of the two [for service_name in ...] loops of
    [check_all_services]; [label] is ["CRÍTICO"] or ["OPCIONAL"].  The
    loop fills the dictionary of the group, counts the services whose
    status is ["ok"] and appends a line to [import_errors] for the
    others. *)
Fixpoint check_loop (imports : importer) (label : string)
    (names : list string) (entries : list (string * pyval)) (ok : Z)
    (import_errors : list pyval)
  : list (string * pyval) * Z * list pyval :=
  match names with
  | [] => (entries, ok, import_errors)
  | service_name :: rest =>
      let '(status, error) := _check_service_import imports service_name in
      let entries' :=
        assoc_set entries service_name
          (PDict [("status", PStr status); ("error", PStr error)]) in
      if String.eqb status "ok" then
        check_loop imports label rest entries' (ok + 1) import_errors
      else
        check_loop imports label rest entries' ok
          (import_errors
             ++ [PStr (label ++ ": " ++ service_name ++ " - " ++ error)])
  end.

Definition _test_ai_manager (imports : importer) : pyval :=
  match imports "ai_manager" with
  | Imported true =>
      PDict [("status", PStr "ok"); ("message", PStr "AI Manager available")]
  | Imported false =>
      PDict [("status", PStr "error"); ("message", PStr "AI Manager is None")]
  | ImportFailed e | ImportRaised e =>
      PDict [("status", PStr "error"); ("message", PStr e)]
  end.

Definition _test_auto_save (imports : importer) : pyval :=
  match imports salvar_etapa_only with
  | Imported _ =>
      PDict [("status", PStr "ok");
             ("message", PStr "Auto Save functions available")]
  | ImportFailed e | ImportRaised e =>
      PDict [("status", PStr "error"); ("message", PStr e)]
  end.

Definition _test_super_orchestrator (imports : importer) : pyval :=
  match imports "super_orchestrator" with
  | Imported true =>
      PDict [("status", PStr "ok");
             ("message", PStr "Super Orchestrator initialized")]
  | Imported false =>
      PDict [("status", PStr "error");
             ("message", PStr "Super Orchestrator is None")]
  | ImportFailed e | ImportRaised e =>
      PDict [("status", PStr "error"); ("message", PStr e)]
  end.

Definition _run_runtime_tests (imports : importer) : pyval :=
  PDict [("ai_manager_basic", _test_ai_manager imports);
         ("auto_save_basic", _test_auto_save imports);
         ("super_orchestrator_init", _test_super_orchestrator imports)].

(** [a < b] on rationals *)
Definition Qlt_bool (a b : Q) : bool := negb (Qle_bool b a).

Definition check_all_services (self : checker) (imports : importer) : pyval :=
  let '(critical, critical_ok, errors1) :=
    check_loop imports "CRÍTICO" (critical_services self) [] 0 [] in
  let '(optional, optional_ok, errors2) :=
    check_loop imports "OPCIONAL" (optional_services self) [] 0 errors1 in
  let n_critical := Z.of_nat (length (critical_services self)) in
  let n_optional := Z.of_nat (length (optional_services self)) in
  let '(overall_health, recommendations) :=
    if critical_ok <? n_critical then
      ("critical",
       [PStr "Serviços críticos com falha - sistema pode não funcionar"])
    else if (critical_ok =? n_critical)
            && Qlt_bool (inject_Z optional_ok)
                        (inject_Z n_optional * (7 # 10))%Q then
      ("degraded",
       [PStr "Muitos serviços opcionais indisponíveis - funcionalidade limitada"])
    else ("healthy", []) in
  PDict [("overall_health", PStr overall_health);
         ("critical_services", PDict critical);
         ("optional_services", PDict optional);
         ("import_errors", PList errors2);
         ("runtime_errors", PList []);
         ("recommendations", PList recommendations);
         ("runtime_tests", _run_runtime_tests imports)].

End HealthChecker.

(** * BrightDataMCPClient: [src/services/brightdata_mcp_client.py]

    The client posts a query to an HTTP service and, when the service
    is not configured or does not answer with status 200, builds
    fallback data itself.  The environment variables, the HTTP request,
    the clock and [str.title] are outside the file and are parameters.
    A coroutine is modelled by what it does when awaited. *)

Module BrightData.

(** What [requests.post] returns: the status code and what [.json()]
    gives (or raises). *)
Record response : Type := { status_code : Z; json : result pyval }.

Record client : Type := {
  base_url : string;
  api_key : option string;
  headers : list (string * pyval);
  is_available : bool
}.

(** [BrightDataMCPClient.__init__]; [getenv] is [os.getenv]. *)
Definition init (getenv : string → option string) : client :=
  let base_url :=
    match getenv "BRIGHTDATA_MCP_URL" with
    | Some u => u
    | None => "https://api.brightdata-mcp.ai/v1"
    end in
  let api_key := getenv "BRIGHTDATA_API_KEY" in
  let has_key :=
    match api_key with
    | Some k => negb (String.eqb k "")
    | None => false
    end in
  {| base_url := base_url;
     api_key := api_key;
     headers :=
       [("Content-Type", PStr "application/json");
        ("Authorization",
           PStr (match api_key with
                 | Some k => if has_key then "Bearer " ++ k else ""
                 | None => ""
                 end));
        ("User-Agent", PStr "ARQV30-Enhanced/2.0")];
     is_available := has_key |}.

Section Client.

Context {W : Type}.
(** [datetime.now().isoformat()] *)
Context (datetime_now_isoformat : W → string * W).
(** [str.title] *)
Context (title : string → string).
(** [requests.post(url, json=payload, headers=headers, timeout=t)] *)
Context (requests_post :
           string → pyval → list (string * pyval) → Z → M W response).

Definition now_iso : M W string :=
  fun w => let (t, w') := datetime_now_isoformat w in (Ret t, w').

(** The dictionary [_process_brightdata_results] builds for one item. *)
Definition process_item (query : string) (item : pyval) : result pyval :=
  match item with
  | PDict i =>
      Ret (PDict
        [("content", assoc_default i "content" (PStr ""));
         ("url", assoc_default i "url" (PStr ""));
         ("title", assoc_default i "title" (PStr ""));
         ("platform", assoc_default i "platform" (PStr "web"));
         ("data_type", assoc_default i "data_type" (PStr "general"));
         ("timestamp", assoc_default i "timestamp" (PStr ""));
         ("engagement_metrics", assoc_default i "engagement" (PDict []));
         ("sentiment", assoc_default i "sentiment" (PStr "neutral"));
         ("language", assoc_default i "language" (PStr "pt"));
         ("country", assoc_default i "country" (PStr "BR"));
         ("query_used", PStr query)])
  | _ => Raise ("'" ++ type_name item ++ "' object has no attribute 'get'")
  end.

(** The [for item in ...] loop: the first item that is not a mapping
    raises. *)
Fixpoint process_items (query : string) (items : list pyval)
  : result (list pyval) :=
  match items with
  | [] => Ret []
  | item :: rest =>
      match process_item query item with
      | Raise e => Raise e
      | Ret p =>
          match process_items query rest with
          | Raise e => Raise e
          | Ret ps => Ret (p :: ps)
          end
      end
  end.

Definition _process_brightdata_results (data : pyval) (query : string)
  : result pyval :=
  match py_get data "results" (PList []) with
  | Raise e => Raise e
  | Ret results =>
      match py_iter results with
      | Raise e => Raise e
      | Ret items =>
          match process_items query items with
          | Raise e => Raise e
          | Ret processed_results =>
              match py_get data "data_types_found" (PList []) with
              | Raise e => Raise e
              | Ret found =>
                  Ret (PDict
                    [("success", PBool true);
                     ("provider", PStr "brightdata");
                     ("data", PList processed_results);
                     ("total_found",
                        PInt (Z.of_nat (length processed_results)));
                     ("query", PStr query);
                     ("data_types_collected", found)])
              end
          end
      end
  end.

(** [data_types or [...]] with the given default list; the parameter is
    [None] or a list of strings. *)
Definition types_or (data_types : option (list string))
    (default : list string) : list string :=
  match data_types with
  | Some (t :: ts) => t :: ts
  | _ => default
  end.

(** The [for i, data_type in enumerate(data_types[:3])] loop, from
    index [i] on. *)
Fixpoint fallback_items (query : string) (i : Z) (data_types : list string)
  : M W (list pyval) :=
  match data_types with
  | [] => ret []
  | data_type :: rest =>
      let* timestamp := now_iso in
      let item :=
        PDict
          [("content",
              PStr ("Dados de " ++ data_type ++ " sobre " ++ query
                    ++ " coletados via análise de mercado brasileiro"));
           ("url",
              PStr ("https://example.com/" ++ data_type ++ "/"
                    ++ pretty (i + 1)));
           ("title", PStr ("Análise " ++ title data_type ++ ": " ++ query));
           ("platform", PStr data_type);
           ("data_type", PStr data_type);
           ("timestamp", PStr timestamp);
           ("engagement_metrics",
              PDict [("views", PInt ((i + 1) * 100));
                     ("interactions", PInt ((i + 1) * 20))]);
           ("sentiment", PStr "positive");
           ("language", PStr "pt");
           ("country", PStr "BR");
           ("query_used", PStr query);
           ("fallback", PBool true)] in
      let* items := fallback_items query (i + 1) rest in
      ret (item :: items)
  end.

Definition _create_fallback_brightdata_data (query : string)
    (data_types : option (list string)) : M W pyval :=
  let data_types :=
    types_or data_types ["social_media"; "news"; "reviews"] in
  let* fallback_data := fallback_items query 0 (take 3 data_types) in
  ret (PDict
    [("success", PBool true);
     ("provider", PStr "brightdata_fallback");
     ("data", PList fallback_data);
     ("total_found", PInt (Z.of_nat (length fallback_data)));
     ("query", PStr query);
     ("message",
        PStr "Usando dados de análise de mercado devido à indisponibilidade da API")]).

Definition collect_web_data (self : client) (query : string)
    (data_types : option (list string)) : M W pyval :=
  try_catch
    (if negb (is_available self) then
       _create_fallback_brightdata_data query data_types
     else
       let payload :=
         PDict
           [("query", PStr query);
            ("data_types",
               PList (map PStr
                        (types_or data_types
                           ["social_media"; "news"; "reviews"; "forums"])));
            ("max_results", PInt 50);
            ("country", PStr "BR");
            ("language", PStr "pt")] in
       let* response :=
         requests_post (base_url self ++ "/collect") payload (headers self) 45 in
       if status_code response =? 200 then
         let* data := lift (json response) in
         lift (_process_brightdata_results data query)
       else _create_fallback_brightdata_data query data_types)
    (fun _ => _create_fallback_brightdata_data query data_types).

(** The three posts [_create_fallback_social_data] invents for a
    platform: [for i in range(3)], from index [i] on. *)
Fixpoint fallback_posts (query platform : string) (i : Z) (n : nat)
  : M W (list pyval) :=
  match n with
  | O => ret []
  | S n' =>
      let* timestamp := now_iso in
      let post :=
        PDict [("content",
                  PStr ("Post sobre " ++ query ++ " na plataforma " ++ platform));
               ("engagement_score", PInt ((i + 1) * 10));
               ("timestamp", PStr timestamp);
               ("platform", PStr platform);
               ("fallback", PBool true)] in
      let* posts := fallback_posts query platform (i + 1) n' in
      ret (post :: posts)
  end.

(** [sum(post['engagement_score'] for post in posts)] over the posts
    built above. *)
Definition engagement_sum (posts : list pyval) : Z :=
  fold_right
    (fun post acc =>
       match field post "engagement_score" with
       | Some (PInt z) => z + acc
       | _ => acc
       end) 0 posts.

(** The [for platform in platforms] loop. *)
Fixpoint fallback_social_loop (query : string) (platforms : list string)
    (social_data : list (string * pyval)) (total_posts : Z)
  : M W (list (string * pyval) * Z) :=
  match platforms with
  | [] => ret (social_data, total_posts)
  | platform :: rest =>
      let* posts := fallback_posts query platform 0 3 in
      let count := Z.of_nat (length posts) in
      let entry :=
        PDict [("posts", PList posts);
               ("count", PInt count);
               ("avg_engagement",
                  PFloat (inject_Z (engagement_sum posts) / inject_Z count)%Q)] in
      fallback_social_loop query rest
        (assoc_set social_data platform entry)
        (total_posts + count)
  end.

Definition _create_fallback_social_data (query : string)
    (platforms : list string) : M W pyval :=
  let* r := fallback_social_loop query platforms [] 0 in
  ret (PDict
    [("success", PBool true);
     ("provider", PStr "brightdata_fallback");
     ("platforms_data", PDict r.1);
     ("total_posts", PInt r.2);
     ("query", PStr query);
     ("message",
        PStr "Dados simulados - configure BrightData API para dados reais")]).

End Client.

End BrightData.

(** * Specification vocabulary *)

(** ** Computations *)

(** A computation that returns a value from every state. *)
Definition total {S A} (m : M S A) : Prop :=
  ∀ s, ∃ a s', m s = (Ret a, s').

(** Every value the computation can return satisfies [P]. *)
Definition post {S A} (m : M S A) (P : A → Prop) : Prop :=
  ∀ s a s', m s = (Ret a, s') → P a.

(** ** Phase outputs *)






(** The thirteen values a complete run computes. *)
Record outputs : Type := {
  o_web : pyval;
  o_social : pyval;
  o_avatar : pyval;
  o_drivers : pyval;
  o_visual : pyval;
  o_anti : pyval;
  o_pre_pitch : pyval;
  o_predictions : pyval;
  o_competition : pyval;
  o_insights : pyval;
  o_keywords : pyval;
  o_funnel : pyval;
  o_report : pyval
}.

(** The [complete_analysis_data] dictionary of a run with these outputs. *)
Definition consolidated_outputs (sid : string) (data : pyval) (o : outputs)
  : pyval :=
  consolidated sid data (o_web o) (o_avatar o) (o_drivers o) (o_visual o)
    (o_anti o) (o_pre_pitch o) (o_predictions o) (o_competition o)
    (o_insights o) (o_keywords o) (o_funnel o) (o_social o).

(** What the twelve phases and the final report compute for the request
    [{segmento: "fitness", produto: "app"}] when no collaborator is
    present; [ts] is the timestamp the report reads. *)
Definition degraded_outputs (sid ts : string) : outputs :=
  {| o_web :=
       PDict [("status", PStr "fallback"); ("processed_results", PList []);
              ("source", PStr "fallback_basic")];
     o_social :=
       PDict [("status", PStr "unavailable"); ("total_posts", PInt 0)];
     o_avatar :=
       PDict
         [("status", PStr "success");
          ("nome_ficticio", PStr "Avatar fitness");
          ("dores_viscerais_unificadas",
             PList [PStr "Falta de tempo"; PStr "Dificuldade em decidir"]);
          ("desejos_secretos_unificados",
             PList [PStr "Reconhecimento"; PStr "Estabilidade"]);
          ("objecoes_principais",
             PList [PStr "Preço alto"; PStr "Falta de confiança"]);
          ("fonte_dados",
             PDict [("data_real", PBool true); ("web_sources", PInt 0)])];
     o_drivers :=
       PDict [("status", PStr "fallback"); ("drivers_customizados", PList [])];
     o_visual := PDict [("status", PStr "fallback"); ("proofs", PList [])];
     o_anti :=
       PDict [("status", PStr "fallback"); ("sistema_anti_objecao", PDict [])];
     o_pre_pitch :=
       PDict [("status", PStr "fallback"); ("sequencias_pre_pitch", PList [])];
     o_predictions :=
       PDict [("status", PStr "fallback"); ("predicoes", PList [])];
     o_competition :=
       PDict [("status", PStr "success");
              ("analise_completa",
                 PStr "Análise de concorrência para fitness");
              ("fontes_analisadas", PInt 0)];
     o_insights :=
       PDict [("status", PStr "success");
              ("insights_completos",
                 PStr "Insights baseados nos dados coletados");
              ("fontes_utilizadas",
                 PDict [("web_sources", PInt 0); ("social_posts", PInt 0)])];
     o_keywords :=
       PDict [("status", PStr "success");
              ("analise_completa",
                 PStr "Palavras-chave estratégicas identificadas");
              ("fonte_dados",
                 PDict [("web_sources_analyzed", PInt 0);
                        ("avatar_included", PBool true)])];
     o_funnel :=
       PDict [("status", PStr "success");
              ("funil_otimizado",
                 PStr "Funil otimizado com base nos dados coletados");
              ("dados_base",
                 PDict [("drivers_applied", PInt 0);
                        ("avatar_based", PBool true)])];
     o_report :=
       PDict
         [("status", PStr "basic");
          ("session_id", PStr sid);
          ("timestamp", PStr ts);
          ("resumo_executivo",
             PStr "Análise completa finalizada com todos os componentes");
          ("componentes_analisados",
             PList
               [PStr "session_id"; PStr "projeto_dados";
                PStr "pesquisa_web_massiva"; PStr "avatar_ultra_detalhado";
                PStr "drivers_mentais_customizados";
                PStr "provas_visuais_arsenal"; PStr "sistema_anti_objecao";
                PStr "pre_pitch_invisivel"; PStr "predicoes_futuro_detalhadas";
                PStr "analise_concorrencia"; PStr "insights_exclusivos";
                PStr "palavras_chave_estrategicas";
                PStr "funil_vendas_otimizado"; PStr "analise_redes_sociais"]);
          ("dados_coletados",
             PDict [("web_sources", PInt 0);
                    ("social_posts", PInt 0);
                    ("avatar_criado", PBool true);
                    ("drivers_gerados", PInt 0);
                    ("provas_visuais", PInt 0);
                    ("sistema_anti_objecao", PBool false);
                    ("funil_otimizado", PBool true)]);
          ("report_generator", PStr "basic_fallback_enhanced")] |}.

(** The [status] entries of the twelve phase outputs, in phase order. *)
Definition phase_statuses (o : outputs) : list (option pyval) :=
  map (fun v => field v "status")
    [o_web o; o_social o; o_avatar o; o_drivers o; o_visual o; o_anti o;
     o_pre_pitch o; o_predictions o; o_competition o; o_insights o;
     o_keywords o; o_funnel o].

(** ** Runs *)

Section RunVocabulary.

Context {W : Type} (env : module_env W).

(** The instance as a run leaves it right after storing its session. *)
Definition started (sid : string) (t0 : Q) (self : orch W) : orch W :=
  begin_session sid t0 (clear_recursion_depth self).

(** The instance as a run that started from [started sid t0 self] leaves
    it when it reaches its end. *)
Definition finished (sid : string) (t0 dt : Q) (self : orch W) : orch W :=
  set_execution_state
    (<[sid := mark_completed dt (running_session t0)]>
       (execution_state (started sid t0 self)))
    (started sid t0 self).

(** Every phase ran, in the order of the source, each on the outputs of
    the earlier ones, and then the final report on all of them.  [w] is
    the world before the first phase and [w'] the one after the report. *)
Definition pipeline_trace (self : orch W) (data : pyval) (sid : string)
    (w : W) (o : outputs) (w' : W) : Prop :=
  ∃ w1 w2 w3 w4 w5 w6 w7 w8 w9 w10 w11 w12,
    _execute_real_web_search env self data sid w = (Ret (o_web o), w1) ∧
    _execute_real_social_analysis env self data sid w1 = (Ret (o_social o), w2) ∧
    _execute_real_avatar_analysis env self (o_web o) (o_social o) data sid w2
      = (Ret (o_avatar o), w3) ∧
    _execute_real_mental_drivers self (o_avatar o) (o_web o) data sid w3
      = (Ret (o_drivers o), w4) ∧
    _execute_real_visual_proofs env self (o_drivers o) data sid w4
      = (Ret (o_visual o), w5) ∧
    _execute_real_anti_objection env self (o_drivers o) (o_avatar o) data sid w5
      = (Ret (o_anti o), w6) ∧
    _execute_real_pre_pitch self (o_drivers o) (o_anti o) data sid w6
      = (Ret (o_pre_pitch o), w7) ∧
    _execute_real_future_predictions self (o_web o) (o_social o) sid w7
      = (Ret (o_predictions o), w8) ∧
    _execute_real_competition_analysis env self (o_web o) data sid w8
      = (Ret (o_competition o), w9) ∧
    _execute_real_insights_extraction self (o_web o) (o_social o) sid w9
      = (Ret (o_insights o), w10) ∧
    _execute_real_keywords_analysis self (o_web o) (o_avatar o) sid w10
      = (Ret (o_keywords o), w11) ∧
    _execute_real_sales_funnel self (o_drivers o) (o_avatar o) sid w11
      = (Ret (o_funnel o), w12) ∧
    _generate_final_report env self (consolidated_outputs sid data o) sid w12
      = (Ret (o_report o), w').






End RunVocabulary.




(** The [percentage] and [completed] entries of a progress record. *)
Definition percentage_of (r : result pyval) : option pyval :=
  match r with
  | Ret d => field d "percentage"
  | Raise _ => None
  end.

Definition completed_of (r : result pyval) : option pyval :=
  match r with
  | Ret d => field d "completed"
  | Raise _ => None
  end.

(** ** Vocabulary of the further properties *)

(** The keys [__init__] may bind in [self.services]. *)
Definition registry_keys : list string :=
  ["ai_manager"; "content_extractor"; "mental_drivers"; "visual_proofs";
   "anti_objection"; "pre_pitch"; "future_prediction"; "supadata";
   "websailor"; "enhanced_report"].

(** The first of two optional bindings. *)
Definition bound_or {A} (x rest : option A) : option A :=
  match x with
  | Some s => Some s
  | None => rest
  end.

(** What a module-level name offers to the registry: what it holds, if
    it is truthy. *)
Definition registered {A} (x : option (binding A)) : option A :=
  match x with
  | Some b => if truth b then Some (held b) else None
  | None => None
  end.

(** The instance a module-level class gives when it is truthy and
    called; nothing, and no call, otherwise. *)
Definition instantiate {W} (C : option (binding (M W (service W))))
  : M W (option (service W)) :=
  match registered C with
  | Some new => let* instance := new in ret (Some instance)
  | None => ret None
  end.

(** The map [m] with [k] bound to [o], if there is an [o]. *)
Definition put {W} (k : string) (o : option (service W))
    (m : gmap string (service W)) : gmap string (service W) :=
  match o with
  | Some s => <[k := s]> m
  | None => m
  end.

(** The five classes [__init__] instantiates, in the order of the
    source. *)
Definition registry_classes {W} (env : module_env W)
  : list (option (binding (M W (service W)))) :=
  [AntiObjectionSystem env; PrePitchArchitect env;
   FuturePredictionEngine env; AlibabaWebSailorAgent env;
   EnhancedReportGenerator env].


(** The test the web-research phase applies to what the websailor
    returned: truthy, and a mapping whose [status] is ["success"]. *)
Definition websailor_accepts (res : pyval) : bool :=
  truthy res &&
  match py_get res "status" PNone with
  | Ret st => py_eq_str st "success"
  | Raise _ => false
  end.

(** The record that wraps the search coordinator's results. *)
Definition enhanced_search_record (results : pyval) : pyval :=
  PDict [("status", PStr "success");
         ("processed_results", results);
         ("source", PStr "enhanced_search")].

(** The record of a web research that found no collaborator to answer. *)
Definition fallback_basic_record : pyval :=
  PDict [("status", PStr "fallback");
         ("processed_results", PList []);
         ("source", PStr "fallback_basic")].

(** Reading an entry of an entry of a mapping. *)
Definition field2 (v : pyval) (k1 k2 : string) : option pyval :=
  match field v k1 with
  | Some x => field x k2
  | None => None
  end.

(** The query the social analysis builds from a mapping request. *)
Definition social_query {W} (env : module_env W) (d : list (string * pyval))
  : pyval :=
  PStr (py_str env (assoc_default d "segmento" (PStr "")) ++ " "
        ++ py_str env (assoc_default d "produto" (PStr ""))).



(** The value is a mapping. *)
Definition is_mapping (v : pyval) : bool :=
  match v with
  | PDict _ => true
  | _ => false
  end.

(** The import of a service is graded ["ok"]. *)
Definition import_ok (imports : HealthChecker.importer) (name : string) : bool :=
  String.eqb (HealthChecker._check_service_import imports name).1 "ok".

(** How many of the names are graded ["ok"]. *)
Definition count_ok (imports : HealthChecker.importer) (names : list string) : Z :=
  Z.of_nat (length (List.filter (import_ok imports) names)).

(** The entry a group dictionary holds for a service. *)
Definition grade_entry (imports : HealthChecker.importer) (name : string) : pyval :=
  PDict [("status", PStr (HealthChecker._check_service_import imports name).1);
         ("error", PStr (HealthChecker._check_service_import imports name).2)].

(** * Properties *)

(** ** Reasoning about computations *)

Section MonadFacts.

Context {S : Type}.

Lemma total_ret {A} (a : A) : total (S := S) (ret a).
Proof. intros s. by exists a, s. Qed.

Lemma total_try_catch {A} (m : M S A) h :
  (∀ e, total (h e)) → total (try_catch m h).
Proof.
  intros Hh s. unfold try_catch.
  destruct (m s) as [[a|e] s']; [by exists a, s' | apply Hh].
Qed.

Lemma total_bind {A B} (m : M S A) (k : A → M S B) :
  total m → (∀ a, total (k a)) → total (bind m k).
Proof.
  intros Hm Hk s. unfold bind.
  destruct (Hm s) as (a & s' & ->). apply Hk.
Qed.

Lemma post_ret {A} (a : A) (P : A → Prop) : P a → post (S := S) (ret a) P.
Proof. intros HP s a' s' [= <- _]. exact HP. Qed.

Lemma post_raise {A} e (P : A → Prop) : post (S := S) (raise e) P.
Proof. intros s a s' [=]. Qed.


Lemma post_bind {A B} (m : M S A) (k : A → M S B) (Q : A → Prop) P :
  post m Q → (∀ a, Q a → post (k a) P) → post (bind m k) P.
Proof.
  intros Hm Hk s b s'. unfold bind.
  destruct (m s) as [[a|e] s1] eqn:E; [|done].
  apply Hk. by eapply Hm.
Qed.

Lemma post_try_catch {A} (m : M S A) h P :
  post m P → (∀ e, post (h e) P) → post (try_catch m h) P.
Proof.
  intros Hm Hh s a s'. unfold try_catch.
  destruct (m s) as [[a1|e] s1] eqn:E.
  - intros [= <- _]. by eapply Hm.
  - apply Hh.
Qed.


Lemma post_True {A} (m : M S A) : post m (λ _, True).
Proof. done. Qed.

End MonadFacts.

(** ** Phase outputs *)




Section PhaseFacts.

Context {W : Type} (env : module_env W).

Lemma now_isoformat_total : total (now_isoformat env).
Proof.
  intros w. unfold now_isoformat.
  destruct (datetime_now_isoformat env w) as [t w']. by exists t, w'.
Qed.

Lemma now_total : total (now env).
Proof.
  intros w. unfold now. destruct (time_time env w) as [t w']. by exists t, w'.
Qed.

(** A phase whose [except] branch builds a dictionary returns from every
    state. *)
Ltac phase_total := apply total_try_catch; intros; apply total_ret.

Lemma web_search_total (self : orch W) data sid :
  total (_execute_real_web_search env self data sid).
Proof. phase_total. Qed.

Lemma social_analysis_total (self : orch W) data sid :
  total (_execute_real_social_analysis env self data sid).
Proof. phase_total. Qed.

Lemma avatar_analysis_total (self : orch W) web social data sid :
  total (_execute_real_avatar_analysis env self web social data sid).
Proof. phase_total. Qed.

Lemma mental_drivers_total (self : orch W) avatar web data sid :
  total (_execute_real_mental_drivers self avatar web data sid).
Proof. phase_total. Qed.

Lemma visual_proofs_total (self : orch W) drivers data sid :
  total (_execute_real_visual_proofs env self drivers data sid).
Proof. phase_total. Qed.

Lemma anti_objection_total (self : orch W) drivers avatar data sid :
  total (_execute_real_anti_objection env self drivers avatar data sid).
Proof. phase_total. Qed.

Lemma pre_pitch_total (self : orch W) drivers anti data sid :
  total (_execute_real_pre_pitch self drivers anti data sid).
Proof. phase_total. Qed.

Lemma future_predictions_total (self : orch W) web social sid :
  total (_execute_real_future_predictions self web social sid).
Proof. phase_total. Qed.

Lemma competition_analysis_total (self : orch W) web data sid :
  total (_execute_real_competition_analysis env self web data sid).
Proof. phase_total. Qed.

Lemma insights_extraction_total (self : orch W) web social sid :
  total (_execute_real_insights_extraction self web social sid).
Proof. phase_total. Qed.

Lemma keywords_analysis_total (self : orch W) web avatar sid :
  total (_execute_real_keywords_analysis self web avatar sid).
Proof. phase_total. Qed.

Lemma sales_funnel_total (self : orch W) drivers avatar sid :
  total (_execute_real_sales_funnel self drivers avatar sid).
Proof. phase_total. Qed.

Lemma final_report_total (self : orch W) data sid :
  total (_generate_final_report env self data sid).
Proof.
  apply total_try_catch. intros e.
  apply total_bind; [apply now_isoformat_total | intros; apply total_ret].
Qed.

(** *** Which outputs carry a [status] key *)














(** Whatever the first-truthy loop returns is truthy. *)
Lemma first_truthy_loop_truthy (svc : service W) args methods :
  post (first_truthy_loop svc args methods)
       (λ r, ∀ v, r = Some v → truthy v = true).
Proof.
  induction methods as [|m rest IH]; simpl; [by apply post_ret|].
  destruct (attr svc m) as [f|]; [|done].
  eapply post_bind with (Q := λ r, ∀ v, r = Some v → truthy v = true).
  - apply post_try_catch; [|by intros; apply post_ret].
    eapply post_bind; [apply post_True | intros res _].
    destruct (truthy res) eqn:E; apply post_ret; [|done].
    by intros v [= <-].
  - intros [v|] Hv; [by apply post_ret | done].
Qed.


End PhaseFacts.

(** ** The run *)

Section RunFacts.

Context {W : Type} (env : module_env W).

Lemma lookup_started sid t0 (self : orch W) :
  execution_state (started sid t0 self) !! sid = Some (running_session t0).
Proof. apply lookup_insert_eq. Qed.

Lemma lookup_started_ne sid sid' t0 (self : orch W) :
  sid ≠ sid' →
  execution_state (started sid t0 self) !! sid' = execution_state self !! sid'.
Proof. intros H. by apply lookup_insert_ne. Qed.

(** Unfolding of the monad operations only; the phases stay folded. *)
Ltac mred :=
  cbv beta iota zeta
      delta [bind try_catch with_self modify_self notify ret now
             complete_session negb].

(** One step of a run: read the clock or run the next phase. *)
Ltac run_step :=
  mred;
  match goal with
  | |- context [time_time env ?w] =>
      destruct (time_time env w) as [? ?] eqn:?
  | |- context [_execute_real_web_search env ?s ?d ?i ?w] =>
      destruct (web_search_total env s d i w) as (? & ? & ->)
  | |- context [_execute_real_social_analysis env ?s ?d ?i ?w] =>
      destruct (social_analysis_total env s d i w) as (? & ? & ->)
  | |- context [_execute_real_avatar_analysis env ?s ?a ?b ?d ?i ?w] =>
      destruct (avatar_analysis_total env s a b d i w) as (? & ? & ->)
  | |- context [_execute_real_mental_drivers ?s ?a ?b ?d ?i ?w] =>
      destruct (mental_drivers_total s a b d i w) as (? & ? & ->)
  | |- context [_execute_real_visual_proofs env ?s ?a ?d ?i ?w] =>
      destruct (visual_proofs_total env s a d i w) as (? & ? & ->)
  | |- context [_execute_real_anti_objection env ?s ?a ?b ?d ?i ?w] =>
      destruct (anti_objection_total env s a b d i w) as (? & ? & ->)
  | |- context [_execute_real_pre_pitch ?s ?a ?b ?d ?i ?w] =>
      destruct (pre_pitch_total s a b d i w) as (? & ? & ->)
  | |- context [_execute_real_future_predictions ?s ?a ?b ?i ?w] =>
      destruct (future_predictions_total s a b i w) as (? & ? & ->)
  | |- context [_execute_real_competition_analysis env ?s ?a ?d ?i ?w] =>
      destruct (competition_analysis_total env s a d i w) as (? & ? & ->)
  | |- context [_execute_real_insights_extraction ?s ?a ?b ?i ?w] =>
      destruct (insights_extraction_total s a b i w) as (? & ? & ->)
  | |- context [_execute_real_keywords_analysis ?s ?a ?b ?i ?w] =>
      destruct (keywords_analysis_total s a b i w) as (? & ? & ->)
  | |- context [_execute_real_sales_funnel ?s ?a ?b ?i ?w] =>
      destruct (sales_funnel_total s a b i w) as (? & ? & ->)
  | |- context [_generate_final_report env ?s ?d ?i ?w] =>
      destruct (final_report_total env s d i w) as (? & ? & ->)
  end.


(** A run without a progress callback follows the trace of its phases
    and returns the success dictionary built from the final report. *)
Lemma run_of_trace data sid (self : orch W) w t0 w1 o w2 t1 w3 :
  truthy data = true →
  time_time env w = (t0, w1) →
  pipeline_trace env (started sid t0 self) data sid w1 o w2 →
  time_time env w2 = (t1, w3) →
  execute_synchronized_analysis env data sid None (self, w)
  = (Ret (success_result sid (t1 - t0)%Q (o_report o)),
     (finished sid t0 (t1 - t0)%Q self, w3)).
Proof.
  intros Hd Et0 Htrace Et1.
  destruct Htrace as (x1 & x2 & x3 & x4 & x5 & x6 & x7 & x8 & x9 & x10 & x11
                      & x12 & E1 & E2 & E3 & E4 & E5 & E6 & E7 & E8 & E9 & E10
                      & E11 & E12 & E13).
  unfold execute_synchronized_analysis. rewrite Hd.
  mred. rewrite Et0. mred.
  change (begin_session sid t0 (clear_recursion_depth self))
    with (started sid t0 self).
  rewrite E1. mred. rewrite E2. mred. rewrite E3. mred. rewrite E4. mred.
  rewrite E5. mred. rewrite E6. mred. rewrite E7. mred. rewrite E8. mred.
  rewrite E9. mred. rewrite E10. mred. rewrite E11. mred. rewrite E12. mred.
  unfold consolidated_outputs in E13.
  rewrite E13. mred. rewrite Et1. mred.
  rewrite lookup_started. reflexivity.
Qed.


(** *** Runs with a progress callback *)








(** *** What a run does to the instance *)





(** A progress query never changes the instance. *)
Lemma get_session_progress_keeps_self sid (self : orch W) w :
  (get_session_progress env sid (self, w)).2.1 = self.
Proof.
  unfold get_session_progress.
  destruct (execution_state self !! sid) as [s|]; [|done].
  destruct (String.eqb (status s) "running").
  - by destruct (time_time env w).
  - by destruct (String.eqb (status s) "completed").
Qed.

(** *** What a successful run implies *)

(** The [except] branch never produces the success dictionary. *)
Ltac refute_abort :=
  mred;
  match goal with
  | |- context [salvar_erro env ?n ?e ?c ?w] =>
      destruct (salvar_erro env n e c w) as [[[]|?] ?] eqn:?
  end;
  mred; discriminate.

(** A run that returned the success dictionary had every one of its
    thirteen notifications answered without an exception. *)
Lemma run_success_notified data sid (cb : callback) (self : orch W) w dt rep st' :
  execute_synchronized_analysis env data sid (Some cb) (self, w)
  = (Ret (success_result sid dt rep), st') →
  ∀ i, 1 ≤ i ≤ 13 → ∃ msg s s', cb i msg s = (Ret tt, s').
Proof.
  unfold execute_synchronized_analysis.
  destruct (truthy data); [|discriminate].
  run_step.
  repeat first
    [ mred;
      match goal with
      | |- context [cb ?i ?msg (?s, ?w)] =>
          destruct (cb i msg (s, w)) as [[[]|?] [? ?]] eqn:?;
          [| refute_abort]
      end
    | run_step ].
  mred.
  match goal with
  | |- context [execution_state ?s !! sid] =>
      destruct (execution_state s !! sid); [| refute_abort]
  end.
  intros _ i Hi.
  assert (i = 1 ∨ i = 2 ∨ i = 3 ∨ i = 4 ∨ i = 5 ∨ i = 6 ∨ i = 7 ∨ i = 8 ∨
          i = 9 ∨ i = 10 ∨ i = 11 ∨ i = 12 ∨ i = 13) as Hcases by lia.
  repeat (destruct Hcases as [->|Hcases]); [..|subst i];
    do 3 eexists; eassumption.
Qed.

(** *** The recursion guard along a run *)







End RunFacts.

(** * The claims *)

(** ** Input validation *)

(** C7.  A run on empty (falsy) request parameters returns the failure
    dictionary, with [success] false and the [error] field set, and
    leaves both the orchestrator instance and the world exactly as they
    were: no session entry is created, no phase and no callback runs. *)
Theorem C7_empty_params_rejected {W} (env : module_env W) data sid cb
    (self : orch W) w :
  truthy data = false →
  ∃ d,
    execute_synchronized_analysis env data sid cb (self, w)
    = (Ret d, (self, w)) ∧
    field d "success" = Some (PBool false) ∧
    field d "error"
    = Some (PStr "Dados de entrada obrigatórios não fornecidos") ∧
    field d "session_id" = Some (PStr sid).
Proof.
  intros Hd. unfold execute_synchronized_analysis. rewrite Hd. simpl.
  eexists. split; [reflexivity|]. done.
Qed.

Lemma C7_empty_params_rejected_witness :
  truthy (PDict []) = false ∧
  ∃ d,
    execute_synchronized_analysis Scenario.bare_env (PDict []) "s1"
      (Some Scenario.failing_callback) (Scenario.bare, Scenario.w0)
    = (Ret d, (Scenario.bare, Scenario.w0)) ∧
    field d "success" = Some (PBool false) ∧
    field d "error"
    = Some (PStr "Dados de entrada obrigatórios não fornecidos") ∧
    field d "session_id" = Some (PStr "s1").
Proof.
  split; [reflexivity|].
  apply (C7_empty_params_rejected Scenario.bare_env (PDict []) "s1"
           (Some Scenario.failing_callback) Scenario.bare Scenario.w0).
  reflexivity.
Defined.


(** ** Progress queries *)

Lemma progress_formula_mono (s t1 t2 : Q) :
  (t1 <= t2)%Q →
  (Qmin ((t1 - s) / 600 * 100) 95 <= Qmin ((t2 - s) / 600 * 100) 95)%Q.
Proof.
  intros H. apply Q.min_le_compat_r.
  apply Qmult_le_compat_r; [|done].
  apply Qmult_le_compat_r; [|done].
  unfold Qminus. apply Qplus_le_compat; [done | apply Qle_refl].
Qed.

(** The answer to a query about a running session. *)
Lemma progress_of_running {W} (env : module_env W) sid (self : orch W) w s :
  execution_state self !! sid = Some s →
  status s = "running" →
  let r := get_session_progress env sid (self, w) in
  completed_of r.1 = Some (PBool false) ∧
  percentage_of r.1
  = Some (PFloat (Qmin (((time_time env w).1 - start_time s) / 600 * 100) 95)) ∧
  (Qmin (((time_time env w).1 - start_time s) / 600 * 100) 95 <= 95)%Q ∧
  r.2.1 = self.
Proof.
  intros Hs Hst. unfold get_session_progress. rewrite Hs, Hst. simpl.
  destruct (time_time env w) as [t w']. simpl.
  repeat split. apply Q.le_min_r.
Qed.

(** C8.  [get_session_progress] on an unknown id returns [None]; on a
    completed session it reports [completed: True] and percentage 100;
    on a running session it reports [completed: False] and the
    percentage [min(elapsed / 600 * 100, 95)], which never exceeds 95;
    and of two queries on a running session, the one that reads the
    later clock reports the larger or equal percentage.  No query
    changes the orchestrator. *)
Theorem C8_session_progress {W} (env : module_env W) sid (self : orch W) w :
  (execution_state self !! sid = None →
   get_session_progress env sid (self, w) = (Ret PNone, (self, w))) ∧
  (∀ s, execution_state self !! sid = Some s → status s = "completed" →
     get_session_progress env sid (self, w)
     = (Ret (PDict [("completed", PBool true); ("percentage", PInt 100)]),
        (self, w))) ∧
  (∀ s, execution_state self !! sid = Some s → status s = "running" →
     let r := get_session_progress env sid (self, w) in
     completed_of r.1 = Some (PBool false) ∧
     percentage_of r.1
     = Some (PFloat (Qmin (((time_time env w).1 - start_time s) / 600 * 100) 95)) ∧
     (Qmin (((time_time env w).1 - start_time s) / 600 * 100) 95 <= 95)%Q ∧
     r.2.1 = self) ∧
  (∀ s w2, execution_state self !! sid = Some s → status s = "running" →
     ((time_time env w).1 <= (time_time env w2).1)%Q →
     ∃ p1 p2,
       percentage_of (get_session_progress env sid (self, w)).1
       = Some (PFloat p1) ∧
       percentage_of (get_session_progress env sid (self, w2)).1
       = Some (PFloat p2) ∧
       (p1 <= p2)%Q ∧ (p2 <= 95)%Q).
Proof.
  split; [|split; [|split]].
  - intros Hs. unfold get_session_progress. by rewrite Hs.
  - intros s Hs Hst. unfold get_session_progress. by rewrite Hs, Hst.
  - intros s Hs Hst. by apply progress_of_running.
  - intros s w2 Hs Hst Ht.
    destruct (progress_of_running env sid self w s Hs Hst) as (_ & Hp1 & _).
    destruct (progress_of_running env sid self w2 s Hs Hst) as (_ & Hp2 & _).
    eexists _, _. split; [exact Hp1|]. split; [exact Hp2|].
    split; [by apply progress_formula_mono | apply Q.le_min_r].
Qed.

Lemma C8_session_progress_witness :
  execution_state (started "s1" 0 Scenario.bare) !! "s1"
  = Some (running_session 0) ∧
  status (running_session 0) = "running" ∧
  ((time_time Scenario.bare_env (Scenario.w_at 300)).1
   <= (time_time Scenario.bare_env (Scenario.w_at 900)).1)%Q ∧
  percentage_of
    (get_session_progress Scenario.bare_env "s1"
       (started "s1" 0 Scenario.bare, Scenario.w_at 300)).1
  = Some (PFloat (Qmin ((inject_Z 300 - 0) / 600 * 100) 95)) ∧
  ∃ p1 p2,
    percentage_of
      (get_session_progress Scenario.bare_env "s1"
         (started "s1" 0 Scenario.bare, Scenario.w_at 300)).1
    = Some (PFloat p1) ∧
    percentage_of
      (get_session_progress Scenario.bare_env "s1"
         (started "s1" 0 Scenario.bare, Scenario.w_at 900)).1
    = Some (PFloat p2) ∧
    (p1 <= p2)%Q ∧ (p2 <= 95)%Q.
Proof.
  assert (Hle : ((time_time Scenario.bare_env (Scenario.w_at 300)).1
                 <= (time_time Scenario.bare_env (Scenario.w_at 900)).1)%Q)
    by (vm_compute; discriminate).
  destruct (C8_session_progress Scenario.bare_env "s1"
              (started "s1" 0 Scenario.bare) (Scenario.w_at 300))
    as (_ & _ & Hrun & Hmono).
  split; [reflexivity|]. split; [reflexivity|]. split; [exact Hle|].
  split.
  - destruct (Hrun (running_session 0) eq_refl eq_refl) as (_ & Hp & _).
    exact Hp.
  - exact (Hmono (running_session 0) (Scenario.w_at 900) eq_refl eq_refl Hle).
Defined.

(** ** Failure isolation *)




(** ** Absent collaborators *)

Section Absent.

Context {W : Type} (env : module_env W).

Lemma social_absent (self : orch W) data sid w :
  services self !! "supadata" = None →
  _execute_real_social_analysis env self data sid w
  = (Ret (PDict [("status", PStr "unavailable"); ("total_posts", PInt 0)]), w).
Proof.
  intros H. unfold _execute_real_social_analysis. by rewrite H.
Qed.

Lemma mental_drivers_absent (self : orch W) avatar web data sid w :
  services self !! "mental_drivers" = None →
  _execute_real_mental_drivers self avatar web data sid w
  = (Ret (PDict [("status", PStr "fallback");
                 ("drivers_customizados", PList [])]), w).
Proof.
  intros H. unfold _execute_real_mental_drivers. by rewrite H.
Qed.

Lemma visual_proofs_absent (self : orch W) drivers data sid w :
  services self !! "visual_proofs" = None →
  _execute_real_visual_proofs env self drivers data sid w
  = (Ret (PDict [("status", PStr "fallback"); ("proofs", PList [])]), w).
Proof.
  intros H. unfold _execute_real_visual_proofs. by rewrite H.
Qed.

Lemma anti_objection_absent (self : orch W) drivers avatar data sid w :
  services self !! "anti_objection" = None →
  _execute_real_anti_objection env self drivers avatar data sid w
  = (Ret (PDict [("status", PStr "fallback");
                 ("sistema_anti_objecao", PDict [])]), w).
Proof.
  intros H. unfold _execute_real_anti_objection. by rewrite H.
Qed.

Lemma pre_pitch_absent (self : orch W) drivers anti data sid w :
  services self !! "pre_pitch" = None →
  _execute_real_pre_pitch self drivers anti data sid w
  = (Ret (PDict [("status", PStr "fallback");
                 ("sequencias_pre_pitch", PList [])]), w).
Proof.
  intros H. unfold _execute_real_pre_pitch. by rewrite H.
Qed.

Lemma future_predictions_absent (self : orch W) web social sid w :
  services self !! "future_prediction" = None →
  _execute_real_future_predictions self web social sid w
  = (Ret (PDict [("status", PStr "fallback"); ("predicoes", PList [])]), w).
Proof.
  intros H. unfold _execute_real_future_predictions. by rewrite H.
Qed.

(** The web-research phase consults two collaborators; with both absent
    and a mapping as request it falls through to its basic record. *)
Lemma web_search_absent (self : orch W) d sid w :
  services self !! "websailor" = None →
  enhanced_search_coordinator env = None →
  _execute_real_web_search env self (PDict d) sid w
  = (Ret (PDict [("status", PStr "fallback");
                 ("processed_results", PList []);
                 ("source", PStr "fallback_basic")]), w).
Proof.
  intros H1 H2. unfold _execute_real_web_search. rewrite H1, H2.
  unfold try_catch, bind, lift, ret. simpl.
  by destruct (truthy _).
Qed.

End Absent.

(** C9 (amended).  A phase whose collaborator is missing from the
    services map returns a fixed record, the same for all inputs and all
    worlds, and leaves the world untouched; the record's status is
    [unavailable] for social analysis and [fallback] for mental drivers,
    visual proofs, anti-objection, pre-pitch and predictions.  Web
    research, with both of its search collaborators absent and a mapping
    as request, returns its fixed [fallback] record. *)
Theorem C9_absent_collaborator_fallback {W} (env : module_env W)
    (self : orch W) sid w (data web social avatar drivers anti : pyval) :
  (services self !! "supadata" = None →
   _execute_real_social_analysis env self data sid w
   = (Ret (PDict [("status", PStr "unavailable"); ("total_posts", PInt 0)]), w)) ∧
  (services self !! "mental_drivers" = None →
   _execute_real_mental_drivers self avatar web data sid w
   = (Ret (PDict [("status", PStr "fallback");
                  ("drivers_customizados", PList [])]), w)) ∧
  (services self !! "visual_proofs" = None →
   _execute_real_visual_proofs env self drivers data sid w
   = (Ret (PDict [("status", PStr "fallback"); ("proofs", PList [])]), w)) ∧
  (services self !! "anti_objection" = None →
   _execute_real_anti_objection env self drivers avatar data sid w
   = (Ret (PDict [("status", PStr "fallback");
                  ("sistema_anti_objecao", PDict [])]), w)) ∧
  (services self !! "pre_pitch" = None →
   _execute_real_pre_pitch self drivers anti data sid w
   = (Ret (PDict [("status", PStr "fallback");
                  ("sequencias_pre_pitch", PList [])]), w)) ∧
  (services self !! "future_prediction" = None →
   _execute_real_future_predictions self web social sid w
   = (Ret (PDict [("status", PStr "fallback"); ("predicoes", PList [])]), w)) ∧
  (services self !! "websailor" = None →
   enhanced_search_coordinator env = None →
   ∀ d, _execute_real_web_search env self (PDict d) sid w
        = (Ret (PDict [("status", PStr "fallback");
                       ("processed_results", PList []);
                       ("source", PStr "fallback_basic")]), w)).
Proof.
  repeat split.
  - apply social_absent.
  - apply mental_drivers_absent.
  - apply visual_proofs_absent.
  - apply anti_objection_absent.
  - apply pre_pitch_absent.
  - apply future_predictions_absent.
  - intros H1 H2 d. by apply web_search_absent.
Qed.

Lemma C9_absent_collaborator_fallback_witness :
  services Scenario.bare !! "supadata" = None ∧
  services Scenario.bare !! "mental_drivers" = None ∧
  _execute_real_social_analysis Scenario.bare_env Scenario.bare
    Scenario.fitness_app "s1" (Scenario.w_at 7)
  = (Ret (PDict [("status", PStr "unavailable"); ("total_posts", PInt 0)]),
     Scenario.w_at 7) ∧
  _execute_real_mental_drivers Scenario.bare PNone PNone
    Scenario.fitness_app "s1" (Scenario.w_at 7)
  = (Ret (PDict [("status", PStr "fallback");
                 ("drivers_customizados", PList [])]), Scenario.w_at 7).
Proof.
  destruct (C9_absent_collaborator_fallback Scenario.bare_env Scenario.bare
              "s1" (Scenario.w_at 7) Scenario.fitness_app PNone PNone PNone
              PNone PNone) as (Hsocial & Hdrivers & _).
  split; [reflexivity|]. split; [reflexivity|].
  split; [apply Hsocial | apply Hdrivers]; reflexivity.
Defined.

(** C9 as stated fails: with its collaborator absent the mental-drivers
    phase reports [fallback], not [unavailable]. *)
Lemma C9_counterexample :
  services Scenario.bare !! "mental_drivers" = None ∧
  ∃ v,
    _execute_real_mental_drivers Scenario.bare (PDict []) (PDict [])
      Scenario.fitness_app "s1" Scenario.w0 = (Ret v, Scenario.w0) ∧
    field v "status" = Some (PStr "fallback") ∧
    field v "status" ≠ Some (PStr "unavailable").
Proof.
  split; [reflexivity|]. eexists. split; [reflexivity|]. by split.
Qed.

(** ** The fully degraded run *)

Lemma degraded_trace {W} (env : module_env W) (self : orch W) sid w ts w' :
  services self = ∅ →
  enhanced_search_coordinator env = None →
  datetime_now_isoformat env w = (ts, w') →
  pipeline_trace env self Scenario.fitness_app sid w
    (degraded_outputs sid ts) w'.
Proof.
  intros Hs He Hts.
  assert (Hl : ∀ k, services self !! k = None)
    by (intros k; rewrite Hs; apply lookup_empty).
  exists w, w, w, w, w, w, w, w, w, w, w, w. simpl.
  split; [by apply web_search_absent|].
  split; [by apply social_absent|].
  split; [reflexivity|].
  split; [by apply mental_drivers_absent|].
  split; [by apply visual_proofs_absent|].
  split; [by apply anti_objection_absent|].
  split; [by apply pre_pitch_absent|].
  split; [by apply future_predictions_absent|].
  split; [reflexivity|].
  split; [reflexivity|].
  split; [reflexivity|].
  split; [reflexivity|].
  unfold _generate_final_report. rewrite Hl.
  unfold try_catch, bind, ret, now_isoformat. rewrite Hts. reflexivity.
Qed.

(** C2 (amended).  With an empty services map and no search coordinator,
    a run on [{segmento: "fitness", produto: "app"}] returns
    [success: True].  The seven phases that consult a collaborator
    report [fallback] ([unavailable] for social analysis); the five
    phases that consult none (avatar, competition, insights, keywords,
    sales funnel) report [success].  The returned record does not carry
    the phase outputs: it carries the basic report, whose
    [dados_coletados] counts are all zero for collaborator data, and a
    [data_validation] block that is the same in every run and reads
    [components_with_real_data: 12]. *)
Theorem C2_all_collaborators_absent {W} (env : module_env W) (self : orch W)
    sid w :
  services self = ∅ →
  enhanced_search_coordinator env = None →
  ∃ t0 w1 ts w2 t1 w3 o,
    time_time env w = (t0, w1) ∧
    datetime_now_isoformat env w1 = (ts, w2) ∧
    time_time env w2 = (t1, w3) ∧
    o = degraded_outputs sid ts ∧
    pipeline_trace env (started sid t0 self) Scenario.fitness_app sid w1 o w2 ∧
    execute_synchronized_analysis env Scenario.fitness_app sid None (self, w)
    = (Ret (success_result sid (t1 - t0)%Q (o_report o)),
       (finished sid t0 (t1 - t0)%Q self, w3)) ∧
    phase_statuses o
    = [Some (PStr "fallback"); Some (PStr "unavailable");
       Some (PStr "success"); Some (PStr "fallback"); Some (PStr "fallback");
       Some (PStr "fallback"); Some (PStr "fallback"); Some (PStr "fallback");
       Some (PStr "success"); Some (PStr "success"); Some (PStr "success");
       Some (PStr "success")] ∧
    field (o_report o) "dados_coletados"
    = Some (PDict [("web_sources", PInt 0);
                   ("social_posts", PInt 0);
                   ("avatar_criado", PBool true);
                   ("drivers_gerados", PInt 0);
                   ("provas_visuais", PInt 0);
                   ("sistema_anti_objecao", PBool false);
                   ("funil_otimizado", PBool true)]) ∧
    field (success_result sid (t1 - t0)%Q (o_report o)) "data_validation"
    = Some (PDict [("all_data_real", PBool true);
                   ("zero_simulated_data", PBool true);
                   ("zero_fallbacks_used", PBool true);
                   ("components_with_real_data", PInt 12)]).
Proof.
  intros Hs He.
  destruct (time_time env w) as [t0 w1] eqn:Et0.
  destruct (datetime_now_isoformat env w1) as [ts w2] eqn:Ets.
  destruct (time_time env w2) as [t1 w3] eqn:Et1.
  assert (Htrace : pipeline_trace env (started sid t0 self)
                     Scenario.fitness_app sid w1 (degraded_outputs sid ts) w2)
    by (by apply degraded_trace).
  exists t0, w1, ts, w2, t1, w3, (degraded_outputs sid ts).
  repeat split; try done.
  by eapply run_of_trace.
Qed.

Lemma C2_all_collaborators_absent_witness :
  services Scenario.bare = ∅ ∧
  enhanced_search_coordinator Scenario.bare_env = None ∧
  ∃ d st,
    execute_synchronized_analysis Scenario.bare_env Scenario.fitness_app "s1"
      None (Scenario.bare, Scenario.w0) = (Ret d, st) ∧
    field d "success" = Some (PBool true).
Proof.
  split; [reflexivity|]. split; [reflexivity|].
  destruct (C2_all_collaborators_absent Scenario.bare_env Scenario.bare "s1"
              Scenario.w0 eq_refl eq_refl)
    as (t0 & w1 & ts & w2 & t1 & w3 & o & _ & _ & _ & _ & _ & E & _).
  eexists _, _. split; [exact E | reflexivity].
Defined.

(** C2 as stated fails: in the run with every collaborator absent the
    avatar phase reports [success], which is neither [unavailable] nor
    [fallback], and the returned record reports twelve components with
    real data, not zero. *)
Lemma C2_counterexample :
  ∃ o w' d st v,
    pipeline_trace Scenario.bare_env (started "s1" 0 Scenario.bare)
      Scenario.fitness_app "s1" (Scenario.w_at 1) o w' ∧
    field (o_avatar o) "status" = Some (PStr "success") ∧
    execute_synchronized_analysis Scenario.bare_env Scenario.fitness_app "s1"
      None (Scenario.bare, Scenario.w0) = (Ret d, st) ∧
    field d "report" = Some (o_report o) ∧
    field d "data_validation" = Some v ∧
    field v "components_with_real_data" = Some (PInt 12).
Proof.
  exists (degraded_outputs "s1" "2024-01-01T00:00:00"), (Scenario.w_at 1).
  eexists _, _, _.
  split; [by apply degraded_trace|].
  split; [reflexivity|].
  split; [vm_compute; reflexivity|].
  split; [reflexivity|]. split; reflexivity.
Qed.

(** ** A raising callback *)




(** ** Session ids *)




(** ** The recursion depth map *)




(** ** Candidate operations *)

Section Candidates.

Context {W : Type} (env : module_env W).

(** A name the collaborator does not expose is skipped. *)
Lemma first_truthy_loop_skip (svc : service W) args m rest :
  attr svc m = None →
  first_truthy_loop svc args (m :: rest) = first_truthy_loop svc args rest.
Proof. intros H. simpl. by rewrite H. Qed.

(** A truthy result ends the search: nothing is invoked after it. *)
Lemma first_truthy_loop_win (svc : service W) args m rest f w v w' :
  attr svc m = Some f →
  f args w = (Ret v, w') →
  truthy v = true →
  first_truthy_loop svc args (m :: rest) w = (Ret (Some v), w').
Proof.
  intros Ha Hf Hv. simpl. rewrite Ha.
  unfold bind, try_catch, ret. by rewrite Hf, Hv.
Qed.

(** A falsy result moves on to the next name. *)
Lemma first_truthy_loop_falsy (svc : service W) args m rest f w v w' :
  attr svc m = Some f →
  f args w = (Ret v, w') →
  truthy v = false →
  first_truthy_loop svc args (m :: rest) w
  = first_truthy_loop svc args rest w'.
Proof.
  intros Ha Hf Hv. simpl. rewrite Ha.
  unfold bind, try_catch, ret. by rewrite Hf, Hv.
Qed.

(** So does an exception. *)
Lemma first_truthy_loop_raise (svc : service W) args m rest f w e w' :
  attr svc m = Some f →
  f args w = (Raise e, w') →
  first_truthy_loop svc args (m :: rest) w
  = first_truthy_loop svc args rest w'.
Proof.
  intros Ha Hf. simpl. rewrite Ha.
  unfold bind, try_catch, ret. by rewrite Hf.
Qed.

(** With no name exposed, or every call falsy or raising, the search
    ends empty-handed and the caller builds its fallback. *)
Lemma first_truthy_loop_none (svc : service W) args methods :
  (∀ m, In m methods → attr svc m = None) →
  ∀ w, first_truthy_loop svc args methods w = (Ret None, w).
Proof.
  induction methods as [|m rest IH]; intros H w; [done|].
  rewrite first_truthy_loop_skip by (apply H; by left).
  apply IH. intros m' Hm'. apply H. by right.
Qed.

Lemma visual_proofs_loop_skip (svc : service W) drivers data sid m rest :
  attr svc m = None →
  visual_proofs_loop svc drivers data sid (m :: rest)
  = visual_proofs_loop svc drivers data sid rest.
Proof. intros H. simpl. by rewrite H. Qed.

Lemma visual_proofs_loop_raise (svc : service W) drivers d sid m rest f w e w' :
  attr svc m = Some f →
  f [drivers;
     assoc_default d "segmento" (PStr "");
     assoc_default d "produto" (PStr "");
     PStr sid] w = (Raise e, w') →
  visual_proofs_loop svc drivers (PDict d) sid (m :: rest) w
  = visual_proofs_loop svc drivers (PDict d) sid rest w'.
Proof.
  intros Ha Hf. simpl. rewrite Ha.
  unfold bind, try_catch, ret, lift. simpl.
  by rewrite Hf.
Qed.

(** The visual-proofs loop ends at the first call that returns, whether
    or not the value is truthy. *)
Lemma visual_proofs_loop_return (svc : service W) drivers d sid m rest f w v w' :
  attr svc m = Some f →
  f [drivers;
     assoc_default d "segmento" (PStr "");
     assoc_default d "produto" (PStr "");
     PStr sid] w = (Ret v, w') →
  visual_proofs_loop svc drivers (PDict d) sid (m :: rest) w = (Ret v, w').
Proof.
  intros Ha Hf. simpl. rewrite Ha.
  unfold bind, try_catch, ret, lift. simpl.
  by rewrite Hf.
Qed.

End Candidates.

(** C6 (the code departs from the claim).  The visual-proofs collaborator
    exposes [generate_visual_proofs], which returns an empty record, and
    [create_proofs], which returns real proofs.  The phase stops at the
    first call that returns: [create_proofs] is never invoked and the
    phase answers with its fallback.  The anti-objection phase, given a
    collaborator of the same shape, moves on to the second candidate and
    returns its result, as the claim describes. *)
Theorem C6_visual_proofs_stops_at_first_return :
  _execute_real_visual_proofs Scenario.bare_env
    (Scenario.with_services {[ "visual_proofs" := Scenario.shy_visual_proofs ]})
    (PDict []) Scenario.fitness_app "s1" Scenario.w0
  = (Ret (PDict
       [("status", PStr "fallback");
        ("proofs",
           PList [PDict
             [("tipo", PStr "estatistica");
              ("titulo", PStr "Dados sobre fitness");
              ("descricao", PStr "Análise baseada nos drivers para app");
              ("fonte", PStr "Análise própria")]])]),
     {| Scenario.ticks := 0; Scenario.calls := ["generate_visual_proofs"] |}) ∧
  _execute_real_anti_objection Scenario.bare_env
    (Scenario.with_services {[ "anti_objection" := Scenario.shy_anti_objection ]})
    (PDict []) (PDict []) Scenario.fitness_app "s1" Scenario.w0
  = (Ret (PDict [("status", PStr "success");
                 ("sistema_anti_objecao", PDict [("scripts", PInt 3)])]),
     {| Scenario.ticks := 0;
        Scenario.calls := ["create_anti_objection_system"; "create_system"] |}).
Proof. split; vm_compute; reflexivity. Qed.

(** ** Session status *)




(** * Further properties of the orchestrator *)

(** ** The collaborator registry *)

Section Registry.

Context {W : Type} (env : module_env W).

Lemma register_put k (x : option (binding (service W))) m :
  register k x m = put k (registered x) m.
Proof. unfold register, put, registered. by destruct x as [[[] ?]|]. Qed.

Lemma register_new_put k (C : option (binding (M W (service W)))) m w :
  register_new k C m w
  = match instantiate C w with
    | (Ret o, w') => (Ret (put k o m), w')
    | (Raise e, w') => (Raise e, w')
    end.
Proof.
  unfold register_new, instantiate, registered, bind, ret, put.
  destruct C as [[[] new]|]; try reflexivity.
  simpl. by destruct (new w) as [[s|e] w'].
Qed.

Lemma lookup_put k j (o : option (service W)) m :
  put k o m !! j = bound_or (if String.eqb k j then o else None) (m !! j).
Proof.
  unfold put, bound_or. destruct (String.eqb_spec k j) as [->|Hne].
  - destruct o; [apply lookup_insert_eq | done].
  - destruct o; [by apply lookup_insert_ne | done].
Qed.

(** The outcome of the construction, by the outcomes of the five
    constructor calls in the order of the source. *)
Lemma init_by_constructors w :
  SuperOrchestrator_init env w
  = match instantiate (AntiObjectionSystem env) w with
    | (Raise e, w1) => (Raise e, w1)
    | (Ret anti, w1) =>
    match instantiate (PrePitchArchitect env) w1 with
    | (Raise e, w2) => (Raise e, w2)
    | (Ret pre, w2) =>
    match instantiate (FuturePredictionEngine env) w2 with
    | (Raise e, w3) => (Raise e, w3)
    | (Ret fut, w3) =>
    match instantiate (AlibabaWebSailorAgent env) w3 with
    | (Raise e, w4) => (Raise e, w4)
    | (Ret sailor, w4) =>
    match instantiate (EnhancedReportGenerator env) w4 with
    | (Raise e, w5) => (Raise e, w5)
    | (Ret report, w5) =>
        (Ret {| services :=
                  put "enhanced_report" report
                  (put "websailor" sailor
                  (put "supadata" (registered (mcp_supadata_manager env))
                  (put "future_prediction" fut
                  (put "pre_pitch" pre
                  (put "anti_objection" anti
                  (put "visual_proofs" (registered (visual_proofs_generator env))
                  (put "mental_drivers" (registered (mental_drivers_architect env))
                  (put "content_extractor" (registered (content_extractor env))
                  (put "ai_manager" (registered (ai_manager env)) ∅)))))))));
                execution_state := ∅;
                service_status := ∅;
                _global_recursion_depth := ∅;
                _max_recursion_depth := 3 |}, w5)
    end end end end end.
Proof.
  unfold SuperOrchestrator_init. cbv zeta. unfold bind at 1.
  rewrite !register_put, register_new_put.
  destruct (instantiate (AntiObjectionSystem env) w) as [[anti|e] w1]; [|done].
  unfold bind at 1. rewrite register_new_put.
  destruct (instantiate (PrePitchArchitect env) w1) as [[pre|e] w2]; [|done].
  unfold bind at 1. rewrite register_new_put.
  destruct (instantiate (FuturePredictionEngine env) w2) as [[fut|e] w3]; [|done].
  unfold bind at 1. rewrite register_put, register_new_put.
  destruct (instantiate (AlibabaWebSailorAgent env) w3) as [[sailor|e] w4]; [|done].
  unfold bind at 1. rewrite register_new_put.
  by destruct (instantiate (EnhancedReportGenerator env) w4) as [[report|e] w5].
Qed.

(** X1.  Construction.  The five classes among the module-level names
    are instantiated in the order of the source, each constructor in
    the world the previous one left, and only those that are truthy.
    If the construction returns, a key of [self.services] is bound
    exactly when the corresponding module-level name is truthy: to the
    object the name holds or, for a class, to the instance its
    constructor returned; no key outside the ten registry names is
    bound (the search coordinator is never registered), and the session
    map, the status map and the depth map are empty, with a maximum of
    3.  The construction raises exactly when a constructor raises, with
    that exception; it returns when no constructor raises. *)
Theorem init_registers_available_collaborators w :
  (∀ self w', SuperOrchestrator_init env w = (Ret self, w') →
     ∃ anti w1 pre w2 fut w3 sailor w4 report,
       instantiate (AntiObjectionSystem env) w = (Ret anti, w1) ∧
       instantiate (PrePitchArchitect env) w1 = (Ret pre, w2) ∧
       instantiate (FuturePredictionEngine env) w2 = (Ret fut, w3) ∧
       instantiate (AlibabaWebSailorAgent env) w3 = (Ret sailor, w4) ∧
       instantiate (EnhancedReportGenerator env) w4 = (Ret report, w') ∧
       services self !! "ai_manager" = registered (ai_manager env) ∧
       services self !! "content_extractor"
       = registered (content_extractor env) ∧
       services self !! "mental_drivers"
       = registered (mental_drivers_architect env) ∧
       services self !! "visual_proofs"
       = registered (visual_proofs_generator env) ∧
       services self !! "anti_objection" = anti ∧
       services self !! "pre_pitch" = pre ∧
       services self !! "future_prediction" = fut ∧
       services self !! "supadata" = registered (mcp_supadata_manager env) ∧
       services self !! "websailor" = sailor ∧
       services self !! "enhanced_report" = report ∧
       (∀ k, ¬ In k registry_keys → services self !! k = None) ∧
       execution_state self = ∅ ∧
       service_status self = ∅ ∧
       _global_recursion_depth self = ∅ ∧
       _max_recursion_depth self = 3) ∧
  (∀ e w', SuperOrchestrator_init env w = (Raise e, w') →
     ∃ C w0, In C (registry_classes env) ∧
             instantiate C w0 = (Raise e, w')) ∧
  ((∀ C w0, In C (registry_classes env) →
            ∃ o w1, instantiate C w0 = (Ret o, w1)) →
   ∃ self w', SuperOrchestrator_init env w = (Ret self, w')).
Proof.
  rewrite init_by_constructors.
  split; [|split].
  - intros self w'.
    destruct (instantiate (AntiObjectionSystem env) w) as [[anti|e] w1] eqn:E1;
      [|done].
    destruct (instantiate (PrePitchArchitect env) w1) as [[pre|e] w2] eqn:E2;
      [|done].
    destruct (instantiate (FuturePredictionEngine env) w2)
      as [[fut|e] w3] eqn:E3; [|done].
    destruct (instantiate (AlibabaWebSailorAgent env) w3)
      as [[sailor|e] w4] eqn:E4; [|done].
    destruct (instantiate (EnhancedReportGenerator env) w4)
      as [[report|e] w5] eqn:E5; [|done].
    intros [= <- <-].
    exists anti, w1, pre, w2, fut, w3, sailor, w4, report.
    cbn [services execution_state service_status _global_recursion_depth
         _max_recursion_depth].
    repeat lazymatch goal with
           | |- _ ∧ _ => split
           end;
      try reflexivity; try assumption;
      try (rewrite !lookup_put, lookup_empty;
           cbv [String.eqb Ascii.eqb Bool.eqb bound_or];
           match goal with
           | |- match ?x with _ => _ end = _ => by destruct x
           end).
    intros k Hk. rewrite !lookup_put, lookup_empty.
    repeat match goal with
           | |- context [String.eqb ?a k] =>
               destruct (String.eqb_spec a k) as [<-|_];
               [exfalso; apply Hk; simpl; tauto|]
           end.
    reflexivity.
  - intros e0 w'. unfold registry_classes.
    destruct (instantiate (AntiObjectionSystem env) w) as [[anti|e] w1] eqn:E1;
      [|intros [= <- <-]; eexists _, _; split; [|exact E1]; simpl; tauto].
    destruct (instantiate (PrePitchArchitect env) w1) as [[pre|e] w2] eqn:E2;
      [|intros [= <- <-]; eexists _, _; split; [|exact E2]; simpl; tauto].
    destruct (instantiate (FuturePredictionEngine env) w2)
      as [[fut|e] w3] eqn:E3;
      [|intros [= <- <-]; eexists _, _; split; [|exact E3]; simpl; tauto].
    destruct (instantiate (AlibabaWebSailorAgent env) w3)
      as [[sailor|e] w4] eqn:E4;
      [|intros [= <- <-]; eexists _, _; split; [|exact E4]; simpl; tauto].
    destruct (instantiate (EnhancedReportGenerator env) w4)
      as [[report|e] w5] eqn:E5;
      [done|intros [= <- <-]; eexists _, _; split; [|exact E5]; simpl; tauto].
  - intros Htotal. unfold registry_classes in Htotal.
    destruct (Htotal (AntiObjectionSystem env) w) as (anti & w1 & ->);
      [simpl; tauto|].
    destruct (Htotal (PrePitchArchitect env) w1) as (pre & w2 & ->);
      [simpl; tauto|].
    destruct (Htotal (FuturePredictionEngine env) w2) as (fut & w3 & ->);
      [simpl; tauto|].
    destruct (Htotal (AlibabaWebSailorAgent env) w3) as (sailor & w4 & ->);
      [simpl; tauto|].
    destruct (Htotal (EnhancedReportGenerator env) w4) as (report & w5 & ->);
      [simpl; tauto|].
    eauto.
Qed.

End Registry.

(** With every optional import failed, construction gives the bare
    instance and touches nothing. *)
Lemma init_of_bare_env w :
  SuperOrchestrator_init Scenario.bare_env w = (Ret Scenario.bare, w).
Proof. reflexivity. Qed.

Lemma init_registers_available_collaborators_witness :
  ∃ self,
    SuperOrchestrator_init Scenario.staffed_env Scenario.w0
    = (Ret self, Scenario.record_call "AntiObjectionSystem()" Scenario.w0) ∧
    services self !! "ai_manager" = None ∧
    services self !! "mental_drivers" = Some Scenario.statusless_drivers ∧
    services self !! "anti_objection" = Some Scenario.mute_anti_objection ∧
    services self !! "enhanced_search_coordinator" = None.
Proof.
  eexists. split; [reflexivity|].
  destruct (init_registers_available_collaborators Scenario.staffed_env
              Scenario.w0) as (Hret & _).
  destruct (Hret _ _ eq_refl)
    as (anti & w1 & pre & w2 & fut & w3 & sailor & w4 & report
        & E1 & _ & _ & _ & _ & Hai & _ & Hmd & _ & Hanti & _ & _ & _ & _ & _
        & Hother & _).
  rewrite Hai, Hmd, Hanti. injection E1 as <- _.
  split; [reflexivity|]. split; [reflexivity|]. split; [reflexivity|].
  apply Hother. simpl. intuition discriminate.
Defined.

(** ** Web research *)

Section WebSearch.

Context {W : Type} (env : module_env W).

(** Case analysis on the innermost scrutinee of the goal, repeated. *)
Ltac split_matches :=
  repeat (match goal with
          | |- context [match ?x with _ => _ end] =>
              lazymatch x with
              | context [match _ with _ => _ end] => fail
              | _ => destruct x eqn:?
              end
          end; cbv beta iota).

(** X2.  On a mapping request the web research ends in one of three
    ways, whatever the collaborators do: a record of the websailor that
    passed the acceptance test, the search coordinator's truthy results
    wrapped in a [success] record, or the basic fallback record.  It
    never reports [error]. *)
Theorem web_search_on_mapping_request (self : orch W) d sid w :
  ∃ v w',
    _execute_real_web_search env self (PDict d) sid w = (Ret v, w') ∧
    ((websailor_accepts v = true ∧ is_Some (services self !! "websailor")) ∨
     (∃ results, v = enhanced_search_record results ∧ truthy results = true ∧
                 is_Some (enhanced_search_coordinator env)) ∨
     v = fallback_basic_record) ∧
    field v "status" ≠ Some (PStr "error").
Proof.
  assert (Hmain : ∃ v w',
    _execute_real_web_search env self (PDict d) sid w = (Ret v, w') ∧
    ((websailor_accepts v = true ∧ is_Some (services self !! "websailor")) ∨
     (∃ results, v = enhanced_search_record results ∧ truthy results = true ∧
                 is_Some (enhanced_search_coordinator env)) ∨
     v = fallback_basic_record)).
  { unfold _execute_real_web_search, try_catch, bind, lift, ret, call_attr, raise.
    simpl. split_matches; simplify_eq; eexists _, _; (split; [reflexivity|]);
      first
        [ right; right; reflexivity
        | right; left; eexists; by repeat split
        | left; split; [|done]; unfold websailor_accepts;
          repeat match goal with H : _ = _ |- _ => rewrite H end; done ]. }
  destruct Hmain as (v & w' & E & Hv). exists v, w'. split; [done|].
  split; [done|].
  destruct Hv as [[Hacc _]|[(results & -> & _)| ->]]; try done.
  unfold websailor_accepts in Hacc.
  destruct v; try done. simpl in *.
  destruct (assoc_get d0 "status") as [x|] eqn:Ex; unfold assoc_default in Hacc;
    rewrite Ex in Hacc; [|by rewrite andb_false_r in Hacc].
  apply andb_true_iff in Hacc as [_ Hacc].
  destruct x; try done. simpl in Hacc. apply String.eqb_eq in Hacc as ->.
  done.
Qed.


(** X4.  A request that is not a mapping (a non-empty list, a string, a
    number) makes the web research answer with an [error] record that
    carries the attribute error, before any collaborator is consulted. *)
Theorem web_search_on_non_mapping_request (self : orch W) data sid w :
  (∀ d, data ≠ PDict d) →
  _execute_real_web_search env self data sid w
  = (Ret (PDict [("status", PStr "error");
                 ("processed_results", PList []);
                 ("error",
                    PStr ("'" ++ type_name data
                          ++ "' object has no attribute 'get'"))]), w).
Proof.
  intros Hd. destruct data; try reflexivity. by destruct (Hd d).
Qed.

End WebSearch.


Lemma web_search_on_non_mapping_request_witness :
  _execute_real_web_search Scenario.bare_env Scenario.bare
    (PList [PInt 1]) "s1" Scenario.w0
  = (Ret (PDict [("status", PStr "error");
                 ("processed_results", PList []);
                 ("error", PStr "'list' object has no attribute 'get'")]),
     Scenario.w0).
Proof.
  apply (web_search_on_non_mapping_request Scenario.bare_env Scenario.bare
           (PList [PInt 1]) "s1" Scenario.w0).
  intros d. discriminate.
Defined.

(** ** Social analysis *)

Section Social.

Context {W : Type} (env : module_env W).

(** X5.  Social analysis with its collaborator present, on a mapping
    request.  The collaborator is asked for at most 15 results per
    platform.  If the call raises (a missing method included) the phase
    answers [error] with the exception's message and zero posts; if it
    returns a falsy value, [success] with an empty [platforms_data] and
    zero posts; if it returns a mapping whose [all_posts] is a list,
    [success] with the mapping itself and the number of those posts. *)
Theorem social_analysis_with_collaborator (self : orch W) supadata d sid w r w' :
  services self !! "supadata" = Some supadata →
  call_attr supadata "search_all_platforms" [social_query env d; PInt 15] w
  = (r, w') →
  (∀ e, r = Raise e →
     _execute_real_social_analysis env self (PDict d) sid w
     = (Ret (PDict [("status", PStr "error"); ("total_posts", PInt 0);
                    ("error", PStr e)]), w')) ∧
  (∀ res, r = Ret res → truthy res = false →
     _execute_real_social_analysis env self (PDict d) sid w
     = (Ret (PDict [("status", PStr "success"); ("platforms_data", PDict []);
                    ("total_posts", PInt 0)]), w')) ∧
  (∀ dres posts, r = Ret (PDict dres) → truthy (PDict dres) = true →
     assoc_default dres "all_posts" (PList []) = PList posts →
     _execute_real_social_analysis env self (PDict d) sid w
     = (Ret (PDict [("status", PStr "success");
                    ("platforms_data", PDict dres);
                    ("total_posts", PInt (Z.of_nat (length posts)))]), w')).
Proof.
  intros Hs Hcall. unfold social_query in Hcall.
  repeat split.
  - intros e ->.
    unfold _execute_real_social_analysis, try_catch, bind, lift, ret.
    rewrite Hs. simpl. by rewrite Hcall.
  - intros res -> Hres.
    unfold _execute_real_social_analysis, try_catch, bind, lift, ret, py_or.
    rewrite Hs. simpl. by rewrite Hcall, Hres.
  - intros dres posts -> Hres Hposts.
    unfold _execute_real_social_analysis, try_catch, bind, lift, ret, py_or.
    rewrite Hs. simpl. rewrite Hcall, Hres. simpl. by rewrite Hposts.
Qed.

End Social.

Lemma social_analysis_with_collaborator_witness :
  _execute_real_social_analysis Scenario.bare_env
    (Scenario.with_services {[ "supadata" := Scenario.two_posts_supadata ]})
    Scenario.fitness_app "s1" Scenario.w0
  = (Ret (PDict [("status", PStr "success");
                 ("platforms_data",
                    PDict [("all_posts", PList [PStr "p1"; PStr "p2"])]);
                 ("total_posts", PInt 2)]),
     Scenario.record_call "search_all_platforms" Scenario.w0).
Proof.
  destruct (social_analysis_with_collaborator Scenario.bare_env
              (Scenario.with_services {[ "supadata" := Scenario.two_posts_supadata ]})
              Scenario.two_posts_supadata
              [("segmento", PStr "fitness"); ("produto", PStr "app")] "s1"
              Scenario.w0
              (Ret (PDict [("all_posts", PList [PStr "p1"; PStr "p2"])]))
              (Scenario.record_call "search_all_platforms" Scenario.w0))
    as (_ & _ & H); [reflexivity | reflexivity |].
  apply (H [("all_posts", PList [PStr "p1"; PStr "p2"])] [PStr "p1"; PStr "p2"]);
    reflexivity.
Defined.

(** ** Avatar and the source counts *)

Section Avatar.

Context {W : Type} (env : module_env W).

(** X6.  The avatar is named after the request's [segmento]
    (["Profissional"] when the key is missing) and records how many web
    results the web research produced; a web record without
    [processed_results] counts as zero.  When [processed_results] has no
    length (a number, say) the phase answers [error] with the type
    error.  The world is untouched either way. *)
Theorem avatar_counts_web_sources (self : orch W) d dw social sid w :
  (∀ results,
     assoc_default dw "processed_results" (PList []) = PList results →
     ∃ v,
       _execute_real_avatar_analysis env self (PDict dw) social (PDict d) sid w
       = (Ret v, w) ∧
       field v "status" = Some (PStr "success") ∧
       field v "nome_ficticio"
       = Some (PStr ("Avatar "
                     ++ py_str env (assoc_default d "segmento" (PStr "Profissional")))) ∧
       field2 v "fonte_dados" "web_sources"
       = Some (PInt (Z.of_nat (length results)))) ∧
  (∀ e,
     py_len (assoc_default dw "processed_results" (PList [])) = Raise e →
     _execute_real_avatar_analysis env self (PDict dw) social (PDict d) sid w
     = (Ret (PDict [("status", PStr "error"); ("error", PStr e)]), w)).
Proof.
  split.
  - intros results Hres. eexists. split.
    + unfold _execute_real_avatar_analysis, try_catch, bind, lift, ret. simpl.
      rewrite Hres. simpl. reflexivity.
    + done.
  - intros e He.
    unfold _execute_real_avatar_analysis, try_catch, bind, lift, ret. simpl.
    by rewrite He.
Qed.

(** A phase output that reports a status is a mapping. *)
Lemma field_is_dict v k x : field v k = Some x → ∃ d, v = PDict d.
Proof. destruct v; try done. eauto. Qed.

(** What a successful avatar says about the web record it was given. *)
Lemma avatar_success_inv (self : orch W) web social d sid w v w' :
  _execute_real_avatar_analysis env self web social (PDict d) sid w = (Ret v, w') →
  field v "status" = Some (PStr "success") →
  ∃ results n,
    py_get web "processed_results" (PList []) = Ret results ∧
    py_len results = Ret (PInt n) ∧
    field v "nome_ficticio"
    = Some (PStr ("Avatar "
                  ++ py_str env (assoc_default d "segmento" (PStr "Profissional")))) ∧
    field2 v "fonte_dados" "web_sources" = Some (PInt n).
Proof.
  unfold _execute_real_avatar_analysis, try_catch, bind, lift, ret. simpl.
  destruct (py_get web "processed_results" (PList [])) as [results|e];
    [|by intros [= <- _]].
  destruct (py_len results) as [n|e] eqn:Elen; [|by intros [= <- _]].
  intros [= <- _] _.
  destruct results; try done; simpl in Elen; injection Elen as <-;
    eexists _, _; by repeat split.
Qed.

(** X7.  The phases agree on their source counts.  Whenever the avatar
    phase, called on a web record, a social mapping and a mapping
    request, answers [success], the number of web sources it records is
    the number the competition analysis, the insights extraction and
    the keyword analysis record when they are called on the same web
    record; the insights' [social_posts] is the [total_posts] of the
    social mapping they are given (0 when it has none); and the keyword
    analysis, given that avatar, reports it as included.  None of the
    three raises or answers [error] then. *)
Theorem phases_agree_on_source_counts (self : orch W) web ds d sid avatar
    w1 w2 w3 w4 w5 :
  _execute_real_avatar_analysis env self web (PDict ds) (PDict d) sid w1
  = (Ret avatar, w2) →
  field avatar "status" = Some (PStr "success") →
  ∃ n comp ins kw,
    field2 avatar "fonte_dados" "web_sources" = Some (PInt n) ∧
    _execute_real_competition_analysis env self web (PDict d) sid w3
    = (Ret comp, w3) ∧
    field comp "fontes_analisadas" = Some (PInt n) ∧
    _execute_real_insights_extraction self web (PDict ds) sid w4
    = (Ret ins, w4) ∧
    field2 ins "fontes_utilizadas" "web_sources" = Some (PInt n) ∧
    field2 ins "fontes_utilizadas" "social_posts"
    = Some (assoc_default ds "total_posts" (PInt 0)) ∧
    _execute_real_keywords_analysis self web avatar sid w5 = (Ret kw, w5) ∧
    field2 kw "fonte_dados" "web_sources_analyzed" = Some (PInt n) ∧
    field2 kw "fonte_dados" "avatar_included" = Some (PBool true).
Proof.
  intros E3 Hok.
  destruct (avatar_success_inv _ _ _ _ _ _ _ _ E3 Hok)
    as (results & n & Hget & Hlen & Hname & Hn).
  destruct (field_is_dict _ _ _ Hok) as (da & Hda).
  rewrite Hda in Hname. simpl in Hname.
  exists n.
  unfold _execute_real_competition_analysis, _execute_real_insights_extraction,
    _execute_real_keywords_analysis, try_catch, bind, lift, ret.
  simpl. rewrite Hget, Hlen, Hda. simpl.
  assert (Hinc : truthy (assoc_default da "nome_ficticio" PNone) = true)
    by (unfold assoc_default; by rewrite Hname).
  rewrite Hinc. rewrite Hda in Hn.
  eexists _, _, _. repeat split; try reflexivity. exact Hn.
Qed.

End Avatar.

Lemma avatar_counts_web_sources_witness :
  ∃ v,
    _execute_real_avatar_analysis Scenario.bare_env Scenario.bare
      (enhanced_search_record
         (PList [PStr "a"; PStr "b"; PStr "c"; PStr "d"; PStr "e"]))
      (PDict [("status", PStr "unavailable"); ("total_posts", PInt 0)])
      Scenario.fitness_app "s1" Scenario.w0 = (Ret v, Scenario.w0) ∧
    field2 v "fonte_dados" "web_sources" = Some (PInt 5).
Proof.
  destruct (avatar_counts_web_sources Scenario.bare_env Scenario.bare
              [("segmento", PStr "fitness"); ("produto", PStr "app")]
              [("status", PStr "success");
               ("processed_results",
                  PList [PStr "a"; PStr "b"; PStr "c"; PStr "d"; PStr "e"]);
               ("source", PStr "enhanced_search")]
              (PDict [("status", PStr "unavailable"); ("total_posts", PInt 0)])
              "s1" Scenario.w0) as [H _].
  destruct (H [PStr "a"; PStr "b"; PStr "c"; PStr "d"; PStr "e"] eq_refl)
    as (v & E & _ & _ & Hn).
  exists v. split; [exact E | exact Hn].
Defined.

Lemma phases_agree_on_source_counts_witness :
  ∃ comp,
    _execute_real_competition_analysis Scenario.bare_env Scenario.bare
      (enhanced_search_record (PList [PStr "a"; PStr "b"]))
      Scenario.fitness_app "s1" Scenario.w0 = (Ret comp, Scenario.w0) ∧
    field comp "fontes_analisadas" = Some (PInt 2).
Proof.
  destruct (phases_agree_on_source_counts Scenario.bare_env Scenario.bare
              (enhanced_search_record (PList [PStr "a"; PStr "b"]))
              [("status", PStr "success"); ("total_posts", PInt 7)]
              [("segmento", PStr "fitness"); ("produto", PStr "app")] "s1"
              _ Scenario.w0 Scenario.w0 Scenario.w0 Scenario.w0 Scenario.w0
              eq_refl eq_refl)
    as (n & comp & ins & kw & Hn & Ec & Hc & _).
  exists comp. split; [exact Ec|].
  rewrite Hc. f_equal. f_equal.
  vm_compute in Hn. by injection Hn as <-.
Defined.

(** ** Candidate searches and their fallbacks *)

Section CandidateSearch.

Context {W : Type} (env : module_env W).

(** X8.  The candidate search shared by the anti-objection phase and the
    final report never raises, returns only truthy values, and composes:
    searching a list of names that is the concatenation of two lists is
    searching the first list and, only if that found nothing, searching
    the second one from the world the first search left.  Hence a
    candidate is never invoked once an earlier one has won. *)
Theorem first_truthy_loop_app (svc : service W) args l1 l2 w :
  (∃ r w', first_truthy_loop svc args (l1 ++ l2)%list w = (Ret r, w') ∧
           ∀ v, r = Some v → truthy v = true) ∧
  first_truthy_loop svc args (l1 ++ l2)%list w
  = match first_truthy_loop svc args l1 w with
    | (Ret None, w1) => first_truthy_loop svc args l2 w1
    | found => found
    end.
Proof.
  split.
  - assert (Ht : total (first_truthy_loop svc args (l1 ++ l2)%list)).
    { induction (l1 ++ l2)%list as [|m rest IH]; simpl; [apply total_ret|].
      destruct (attr svc m); [|done].
      apply total_bind.
      + apply total_try_catch. intros. apply total_ret.
      + intros [v|]; [apply total_ret | done]. }
    destruct (Ht w) as (r & w' & E). exists r, w'. split; [done|].
    by eapply first_truthy_loop_truthy.
  - revert w. induction l1 as [|m rest IH]; intros w; simpl.
    + by destruct (first_truthy_loop svc args l2 w) as [[[v|]|e] w'].
    + destruct (attr svc m) as [f|]; [|apply IH].
      unfold bind, try_catch, ret.
      destruct (f args w) as [[res|e] w1]; [destruct (truthy res)|];
        try done; apply IH.
Qed.


End CandidateSearch.

Lemma first_truthy_loop_app_witness :
  ∃ r w',
    first_truthy_loop Scenario.shy_anti_objection [PDict []]
      (["create_anti_objection_system"] ++ ["create_system"; "build_system"])%list
      Scenario.w0 = (Ret r, w') ∧
    ∀ v, r = Some v → truthy v = true.
Proof.
  destruct (first_truthy_loop_app Scenario.shy_anti_objection [PDict []]
              ["create_anti_objection_system"] ["create_system"; "build_system"]
              Scenario.w0) as (H & _).
  exact H.
Defined.


(** ** Phases with a single operation *)

Section SingleOperation.

Context {W : Type} (env : module_env W).


End SingleOperation.


(** ** Visual proofs *)

Section VisualProofs.

Context {W : Type} (env : module_env W).

Lemma visual_proofs_loop_unexposed (svc : service W) drivers data sid l1 l2 :
  (∀ m, In m l1 → attr svc m = None) →
  visual_proofs_loop svc drivers data sid (l1 ++ l2)%list
  = visual_proofs_loop svc drivers data sid l2.
Proof.
  induction l1 as [|m rest IH]; intros H; [done|]. simpl.
  rewrite (H m) by (by left). apply IH. intros m' Hm'. apply H. by right.
Qed.

(** X17.  Visual proofs with the collaborator present, on a mapping
    request.  Candidate names the collaborator does not expose are
    passed over; the first exposed one is called with the drivers, the
    request's [segmento] and [produto] (empty text when missing) and the
    session id, and a truthy result of that call is the phase's output.
    When the collaborator exposes none of the five names the phase
    answers [fallback] with one statistic built from [segmento] and
    [produto], defaulting to ["mercado"] and ["produto"]. *)
Theorem visual_proofs_first_exposed_candidate (self : orch W) svc drivers d sid w :
  services self !! "visual_proofs" = Some svc →
  (∀ l1 m l2 f v w',
     visual_proofs_methods = (l1 ++ m :: l2)%list →
     (∀ x, In x l1 → attr svc x = None) →
     attr svc m = Some f →
     f [drivers; assoc_default d "segmento" (PStr "");
        assoc_default d "produto" (PStr ""); PStr sid] w = (Ret v, w') →
     truthy v = true →
     _execute_real_visual_proofs env self drivers (PDict d) sid w = (Ret v, w')) ∧
  ((∀ x, In x visual_proofs_methods → attr svc x = None) →
   _execute_real_visual_proofs env self drivers (PDict d) sid w
   = (Ret (PDict
        [("status", PStr "fallback");
         ("proofs",
            PList [PDict
              [("tipo", PStr "estatistica");
               ("titulo",
                  PStr ("Dados sobre "
                        ++ py_str env (assoc_default d "segmento" (PStr "mercado"))));
               ("descricao",
                  PStr ("Análise baseada nos drivers para "
                        ++ py_str env (assoc_default d "produto" (PStr "produto"))));
               ("fonte", PStr "Análise própria")]])]), w)).
Proof.
  intros Hs. split.
  - intros l1 m l2 f v w' Hsplit Hl1 Hm Hf Hv.
    unfold _execute_real_visual_proofs, try_catch, bind, ret.
    rewrite Hs, Hsplit, (visual_proofs_loop_unexposed svc drivers (PDict d) sid l1
                           (m :: l2) Hl1).
    by rewrite (visual_proofs_loop_return svc drivers d sid m l2 f w v w' Hm Hf), Hv.
  - intros Hnone.
    unfold _execute_real_visual_proofs, try_catch, bind, ret, lift.
    rewrite Hs.
    rewrite <- (app_nil_r visual_proofs_methods) at 1.
    rewrite (visual_proofs_loop_unexposed svc drivers (PDict d) sid
               visual_proofs_methods [] Hnone).
    reflexivity.
Qed.

End VisualProofs.

Lemma visual_proofs_first_exposed_candidate_witness :
  _execute_real_visual_proofs Scenario.bare_env
    (Scenario.with_services {[ "visual_proofs" := Scenario.late_visual_proofs ]})
    (PDict []) Scenario.fitness_app "s1" Scenario.w0
  = (Ret (PDict [("status", PStr "success"); ("proofs", PList [PStr "grafico"])]),
     Scenario.record_call "generate_proofs" Scenario.w0).
Proof.
  destruct (visual_proofs_first_exposed_candidate Scenario.bare_env
              (Scenario.with_services
                 {[ "visual_proofs" := Scenario.late_visual_proofs ]})
              Scenario.late_visual_proofs (PDict [])
              [("segmento", PStr "fitness"); ("produto", PStr "app")] "s1"
              Scenario.w0) as [H _]; [reflexivity|].
  eapply (H ["generate_visual_proofs"; "create_proofs"] "generate_proofs"
            ["create_visual_proofs"; "build_proofs"]).
  - reflexivity.
  - intros x [<-|[<-|[]]]; reflexivity.
  - reflexivity.
  - reflexivity.
  - reflexivity.
Defined.

(** ** The final report *)

Section FinalReport.

Context {W : Type} (env : module_env W).

Ltac split_matches :=
  repeat (match goal with
          | |- context [match ?x with _ => _ end] =>
              lazymatch x with
              | context [match _ with _ => _ end] => fail
              | _ => destruct x eqn:?
              end
          end; cbv beta iota).

(** X11.  Without a report collaborator the final report is computed
    from the web, social, avatar, drivers, visual-proofs, anti-objection
    and funnel outputs only: the request and the pre-pitch, predictions,
    competition, insights and keyword outputs never influence it. *)
Theorem basic_report_ignores_unread_outputs (self : orch W) sid w
    web avatar drivers visual anti funnel social
    data pre pred comp ins kw data' pre' pred' comp' ins' kw' :
  services self !! "enhanced_report" = None →
  _generate_final_report env self
    (consolidated sid data web avatar drivers visual anti pre pred comp ins kw
       funnel social) sid w
  = _generate_final_report env self
      (consolidated sid data' web avatar drivers visual anti pre' pred' comp'
         ins' kw' funnel social) sid w.
Proof.
  intros Hs. unfold _generate_final_report. rewrite Hs. reflexivity.
Qed.

(** X12.  A mental-drivers collaborator that answers with a truthy value
    that is not a mapping (a list, say) has that value handed on as the
    phase output.  Downstream, the sales funnel then answers [error]
    with the attribute error, and the basic final report, which reads
    the drivers too, becomes the error report; neither raises. *)
Theorem non_mapping_drivers_degrade_downstream (self : orch W) svc avatar web
    d sid w x w' :
  services self !! "mental_drivers" = Some svc →
  call_attr svc "create_complete_mental_drivers_system"
    [avatar;
     PDict [("segmento", assoc_default d "segmento" PNone);
            ("produto", assoc_default d "produto" PNone);
            ("session_id", PStr sid)]] w = (Ret x, w') →
  truthy x = true →
  (∀ dx, x ≠ PDict dx) →
  _execute_real_mental_drivers self avatar web (PDict d) sid w = (Ret x, w') ∧
  (∀ avatar2 w2,
     _execute_real_sales_funnel self x avatar2 sid w2
     = (Ret (PDict [("status", PStr "error");
                    ("error",
                       PStr ("'" ++ type_name x
                             ++ "' object has no attribute 'get'"))]), w2)) ∧
  (services self !! "enhanced_report" = None →
   ∀ data web2 visual anti pre pred comp ins kw funnel social w2,
   ∃ ts e w3,
     _generate_final_report env self
       (consolidated sid data web2 avatar x visual anti pre pred comp ins kw
          funnel social) sid w2
     = (Ret (PDict [("status", PStr "error");
                    ("session_id", PStr sid);
                    ("timestamp", PStr ts);
                    ("error", PStr e);
                    ("report_generator", PStr "error_fallback")]), w3)).
Proof.
  intros Hs Hcall Hx Hnd. split; [|split].
  - unfold _execute_real_mental_drivers, try_catch, bind, lift, ret, py_or.
    rewrite Hs. cbn [py_get]. cbv beta iota. by rewrite Hcall, Hx.
  - intros avatar2 w2. destruct x; try reflexivity. by destruct (Hnd d0).
  - intros Hrep data web2 visual anti pre pred comp ins kw funnel social w2.
    unfold _generate_final_report. rewrite Hrep.
    unfold try_catch, bind, lift, ret, now_isoformat.
    assert (Hdrv : ∃ e,
      len_of (consolidated sid data web2 avatar x visual anti pre pred comp
                ins kw funnel social)
        "drivers_mentais_customizados" "drivers_customizados" = Raise e).
    { destruct x; try (eexists; reflexivity). by destruct (Hnd d0). }
    destruct Hdrv as (e & Hdrv). rewrite Hdrv.
    destruct (datetime_now_isoformat env w2) as [ts1 w3]. cbv beta iota.
    split_matches; eauto.
Qed.

End FinalReport.

Lemma basic_report_ignores_unread_outputs_witness :
  _generate_final_report Scenario.bare_env Scenario.bare
    (consolidated "s1" Scenario.fitness_app PNone PNone PNone PNone PNone
       (PStr "pre-pitch") PNone PNone PNone PNone PNone PNone) "s1" Scenario.w0
  = _generate_final_report Scenario.bare_env Scenario.bare
      (consolidated "s1" (PDict []) PNone PNone PNone PNone PNone
         (PInt 7) (PList []) PNone PNone PNone PNone PNone) "s1" Scenario.w0.
Proof.
  apply (basic_report_ignores_unread_outputs Scenario.bare_env Scenario.bare).
  reflexivity.
Defined.

Lemma non_mapping_drivers_degrade_downstream_witness :
  _execute_real_mental_drivers
    (Scenario.with_services {[ "mental_drivers" := Scenario.listing_drivers ]})
    (PDict []) (PDict []) Scenario.fitness_app "s1" Scenario.w0
  = (Ret (PList [PStr "urgencia"; PStr "escassez"]),
     Scenario.record_call "create_complete_mental_drivers_system" Scenario.w0) ∧
  _execute_real_sales_funnel
    (Scenario.with_services {[ "mental_drivers" := Scenario.listing_drivers ]})
    (PList [PStr "urgencia"; PStr "escassez"]) (PDict []) "s1" Scenario.w0
  = (Ret (PDict [("status", PStr "error");
                 ("error", PStr "'list' object has no attribute 'get'")]),
     Scenario.w0).
Proof.
  destruct (non_mapping_drivers_degrade_downstream Scenario.bare_env
              (Scenario.with_services
                 {[ "mental_drivers" := Scenario.listing_drivers ]})
              Scenario.listing_drivers (PDict []) (PDict [])
              [("segmento", PStr "fitness"); ("produto", PStr "app")] "s1"
              Scenario.w0 (PList [PStr "urgencia"; PStr "escassez"])
              (Scenario.record_call "create_complete_mental_drivers_system"
                 Scenario.w0))
    as (Hd & Hf & _); [reflexivity | reflexivity | reflexivity | discriminate |].
  split; [exact Hd | apply Hf].
Defined.

(** ** Runs and sessions *)

Section Runs.

Context {W : Type} (env : module_env W).

(** X13.  A run that returns the success dictionary has notified its
    callback of every one of the thirteen steps, and each notification
    returned without an exception. *)
Theorem success_means_every_step_notified data sid (cb : callback (W := W))
    (self : orch W) w dt rep st' :
  execute_synchronized_analysis env data sid (Some cb) (self, w)
  = (Ret (success_result sid dt rep), st') →
  ∀ i, 1 ≤ i ≤ 13 → ∃ msg s s', cb i msg s = (Ret tt, s').
Proof. apply run_success_notified. Qed.



End Runs.

Lemma success_means_every_step_notified_witness :
  ∃ msg s s', Scenario.quiet_callback 7 msg s = (Ret tt, s').
Proof.
  eapply (success_means_every_step_notified Scenario.bare_env
            Scenario.fitness_app "s1" Scenario.quiet_callback Scenario.bare
            Scenario.w0 1%Q
            (o_report (degraded_outputs "s1" "2024-01-01T00:00:00"))).
  - vm_compute. reflexivity.
  - lia.
Defined.



(** ** Dictionary assignment *)

Lemma assoc_get_set_eq d k v : assoc_get (assoc_set d k v) k = Some v.
Proof.
  induction d as [|[k' v'] d IH]; simpl.
  - by rewrite String.eqb_refl.
  - destruct (String.eqb k' k) eqn:E; simpl.
    + by rewrite String.eqb_refl.
    + by rewrite E.
Qed.

Lemma assoc_get_set_ne d k j v :
  k ≠ j → assoc_get (assoc_set d k v) j = assoc_get d j.
Proof.
  intros Hne. induction d as [|[k' v'] d IH]; simpl.
  - by apply String.eqb_neq in Hne as ->.
  - destruct (String.eqb k' k) eqn:E; simpl.
    + apply String.eqb_eq in E as ->.
      by apply String.eqb_neq in Hne as ->.
    + by rewrite IH.
Qed.

(** * Properties of the health checker *)

Section HealthCheckerFacts.

Import HealthChecker.

(** What a group loop computes, whatever it starts from: the running
    count grows by the number of services graded ["ok"], and the error
    list by one line for each of the others. *)
Lemma check_loop_counts imports label names entries ok errors :
  ∃ entries' errors',
    check_loop imports label names entries ok errors
    = (entries', ok + count_ok imports names, (errors ++ errors')%list) ∧
    Z.of_nat (length errors')
    = Z.of_nat (length names) - count_ok imports names.
Proof.
  revert entries ok errors.
  induction names as [|n rest IH]; intros entries ok errors.
  - exists entries, []. simpl. unfold count_ok. simpl.
    by rewrite Z.add_0_r, app_nil_r.
  - assert (Hio : import_ok imports n
                 = String.eqb (_check_service_import imports n).1 "ok")
      by reflexivity.
    unfold count_ok. simpl. rewrite Hio.
    destruct (_check_service_import imports n) as [status error] eqn:E.
    simpl. destruct (String.eqb status "ok") eqn:Hok.
    + destruct (IH (assoc_set entries n
                      (PDict [("status", PStr status); ("error", PStr error)]))
                   (ok + 1) errors) as (e' & errs' & -> & Hlen).
      exists e', errs'. unfold count_ok in *. simpl length. split.
      * f_equal. f_equal. lia.
      * lia.
    + destruct (IH (assoc_set entries n
                      (PDict [("status", PStr status); ("error", PStr error)]))
                   ok
                   (errors ++ [PStr (label ++ ": " ++ n ++ " - " ++ error)])%list)
        as (e' & errs' & -> & Hlen).
      exists e', (PStr (label ++ ": " ++ n ++ " - " ++ error) :: errs').
      unfold count_ok in *. split.
      * by rewrite <- app_assoc.
      * simpl length. lia.
Qed.

(** After a group loop every service of the group is listed with its
    grade, and the other keys are as they were. *)
Lemma check_loop_entries imports label names entries ok errors j :
  assoc_get (check_loop imports label names entries ok errors).1.1 j
  = if bool_decide (j ∈ names) then Some (grade_entry imports j)
    else assoc_get entries j.
Proof.
  revert entries ok errors.
  induction names as [|n rest IH]; intros entries ok errors; [done|].
  simpl check_loop.
  assert (Hg : grade_entry imports n
               = PDict [("status", PStr (_check_service_import imports n).1);
                        ("error", PStr (_check_service_import imports n).2)])
    by reflexivity.
  destruct (_check_service_import imports n) as [status error] eqn:E.
  simpl in Hg. rewrite <- Hg.
  assert (Hstep : ∀ ok' errors',
    assoc_get
      (check_loop imports label rest
         (assoc_set entries n (grade_entry imports n)) ok' errors').1.1 j
    = if bool_decide (j ∈ n :: rest) then Some (grade_entry imports j)
      else assoc_get entries j).
  { intros ok' errors'. rewrite IH.
    destruct (decide (n = j)) as [->|Hne].
    - rewrite (bool_decide_eq_true_2 (j ∈ j :: rest))
        by (apply elem_of_cons; by left).
      case_bool_decide; [done | apply assoc_get_set_eq].
    - rewrite assoc_get_set_ne by done.
      repeat case_bool_decide; try done.
      + exfalso. match goal with H : ¬ _ |- _ => apply H end.
        apply elem_of_cons. by right.
      + match goal with H : _ ∈ _ :: _ |- _ =>
          apply elem_of_cons in H as [->|?] end; done. }
  destruct (String.eqb status "ok"); apply Hstep.
Qed.

(** X18.  The grade of the system, for the checker as constructed.  It
    is ["critical"] unless both critical services are graded ["ok"];
    otherwise ["degraded"] when fewer than seven of the ten optional
    services are graded ["ok"], and ["healthy"] when seven or more are.
    A recommendation is issued exactly when the grade is not
    ["healthy"]. *)
Theorem overall_health_of_fresh_checker imports :
  let r := check_all_services init imports in
  let critical_fine :=
    import_ok imports "ai_manager" && import_ok imports "auto_save_manager" in
  let n := count_ok imports (optional_services init) in
  let grade :=
    if negb critical_fine then "critical"
    else if n <? 7 then "degraded" else "healthy" in
  field r "overall_health" = Some (PStr grade) ∧
  ∃ recs,
    field r "recommendations" = Some (PList recs) ∧
    (recs = [] ↔ grade = "healthy").
Proof.
  cbv zeta. unfold check_all_services.
  destruct (check_loop_counts imports "CRÍTICO" (critical_services init) [] 0 [])
    as (c & e1 & -> & _).
  destruct (check_loop_counts imports "OPCIONAL" (optional_services init) [] 0
              ([] ++ e1)%list) as (o & e2 & -> & _).
  set (n := count_ok imports (optional_services init)).
  assert (Hc : (0 + count_ok imports (critical_services init) <? 2)
               = negb (import_ok imports "ai_manager"
                       && import_ok imports "auto_save_manager")).
  { unfold count_ok. simpl.
    by destruct (import_ok imports "ai_manager"),
                (import_ok imports "auto_save_manager"). }
  assert (Hq : Qlt_bool (inject_Z (0 + n)) (inject_Z 10 * (7 # 10))%Q
               = (n <? 7)).
  { unfold Qlt_bool, Qle_bool. simpl.
    match goal with
    | |- negb (?a <=? ?b) = _ => destruct (Z.leb_spec a b)
    end; destruct (Z.ltb_spec n 7); simpl; lia. }
  change (Z.of_nat (length (critical_services init))) with 2.
  change (Z.of_nat (length (optional_services init))) with 10.
  rewrite Hc, Hq.
  destruct (import_ok imports "ai_manager" && import_ok imports "auto_save_manager")
    eqn:Hfine; cbn [negb]; cbv iota.
  - assert (Heq : (0 + count_ok imports (critical_services init) =? 2) = true).
    { apply Z.eqb_eq. unfold count_ok. simpl.
      apply andb_true_iff in Hfine as [-> ->]. done. }
    rewrite Heq. cbn [andb].
    destruct (n <? 7); simpl; (split; [done|]); eexists; (split; [done|]);
      split; done.
  - simpl. split; [done|]. eexists. split; [done|]. split; done.
Qed.

(** X19.  The account of the failures, for any checker.  The result
    always lists, under [critical_services] and [optional_services],
    every service of the group with its grade; [import_errors] holds
    exactly one line for each service that is not graded ["ok"], the
    critical ones first; and the three runtime tests are always
    reported. *)
Theorem check_all_services_accounts_for_failures (self : checker) imports :
  let r := check_all_services self imports in
  (∀ name, name ∈ critical_services self →
     field2 r "critical_services" name = Some (grade_entry imports name)) ∧
  (∀ name, name ∈ optional_services self →
     field2 r "optional_services" name = Some (grade_entry imports name)) ∧
  (∃ errors,
     field r "import_errors" = Some (PList errors) ∧
     Z.of_nat (length errors)
     = Z.of_nat (length (critical_services self))
       - count_ok imports (critical_services self)
       + (Z.of_nat (length (optional_services self))
          - count_ok imports (optional_services self))) ∧
  field r "runtime_tests" = Some (_run_runtime_tests imports).
Proof.
  cbv zeta. unfold check_all_services.
  pose proof (check_loop_entries imports "CRÍTICO" (critical_services self)
                [] 0 []) as Hce.
  destruct (check_loop_counts imports "CRÍTICO" (critical_services self) [] 0 [])
    as (c & e1 & Ec & Hl1).
  rewrite Ec in Hce |- *. simpl in Hce.
  pose proof (check_loop_entries imports "OPCIONAL" (optional_services self)
                [] 0 ([] ++ e1)%list) as Hoe.
  destruct (check_loop_counts imports "OPCIONAL" (optional_services self) [] 0
              ([] ++ e1)%list) as (o & e2 & Eo & Hl2).
  rewrite Eo in Hoe |- *. simpl in Hoe.
  destruct (if 0 + count_ok imports (critical_services self)
               <? Z.of_nat (length (critical_services self))
            then _ else _) as [h recs].
  repeat split.
  - intros name Hin. unfold field2. simpl. rewrite Hce.
    by rewrite bool_decide_eq_true_2.
  - intros name Hin. unfold field2. simpl. rewrite Hoe.
    by rewrite bool_decide_eq_true_2.
  - eexists. split; [reflexivity|]. simpl. rewrite length_app. lia.
Qed.

(** X20.  The grade of one import.  A name outside the twelve the
    checker knows is graded ["error"] with an ["Unknown service"]
    message.  For a known service the grade is ["ok"] exactly when the
    import succeeded (and, for [ai_manager], the imported object is
    truthy), ["import_error"] exactly when it raised [ImportError]; and the
    grade ["ok"] comes with an empty message. *)
Theorem check_service_import_grades imports name :
  let known :=
    (critical_services init ++ optional_services init)%list in
  In (_check_service_import imports name).1 ["ok"; "error"; "import_error"] ∧
  (¬ In name known →
   _check_service_import imports name
   = ("error", "Unknown service: " ++ name)) ∧
  (In name known →
   ((_check_service_import imports name).1 = "ok"
    ↔ if String.eqb name "ai_manager" then imports name = Imported true
      else ∃ b, imports name = Imported b) ∧
   ((_check_service_import imports name).1 = "import_error"
    ↔ ∃ e, imports name = ImportFailed e) ∧
   ((_check_service_import imports name).1 = "ok" →
    (_check_service_import imports name).2 = "")).
Proof.
  cbv zeta. split; [|split].
  - unfold _check_service_import, import_only.
    repeat match goal with
           | |- context [String.eqb name ?a] => destruct (String.eqb name a)
           end;
      repeat match goal with
             | |- context [match ?x with _ => _ end] => destruct x
             end; simpl; tauto.
  - intros Hk. unfold _check_service_import.
    repeat match goal with
           | |- context [String.eqb name ?a] =>
               destruct (String.eqb_spec name a) as [->|_];
               [exfalso; apply Hk; simpl; tauto|]
           end.
    reflexivity.
  - intros Hk. simpl in Hk.
    repeat (destruct Hk as [<-|Hk]); [..|done];
      unfold _check_service_import, import_only; simpl;
      match goal with
      | |- context [imports ?a] => destruct (imports a) as [[]|e|e]
      end; simpl; (split; [|split]); try done;
      split; try done; try (intros [b [=]]); try (intros [e' [=]]); eauto.
Qed.

End HealthCheckerFacts.

(** Instances: a system in which one optional service fails to load,
    one whose auto-save module offers [salvar_etapa] but not
    [salvar_erro], and a name the checker does not know. *)
Lemma overall_health_of_fresh_checker_witness :
  ∃ recs,
    field (HealthChecker.check_all_services HealthChecker.init
             (λ name, if String.eqb name "alibaba_websailor"
                      then HealthChecker.ImportRaised "boom"
                      else HealthChecker.Imported true))
      "recommendations" = Some (PList recs) ∧
    recs = [].
Proof.
  destruct (overall_health_of_fresh_checker
              (λ name, if String.eqb name "alibaba_websailor"
                       then HealthChecker.ImportRaised "boom"
                       else HealthChecker.Imported true))
    as (_ & recs & Hr & Hiff).
  exists recs. split; [exact Hr|]. apply Hiff. reflexivity.
Defined.

Lemma check_all_services_accounts_for_failures_witness :
  "auto_save_manager" ∈ HealthChecker.critical_services HealthChecker.init ∧
  ∃ r,
    r = HealthChecker.check_all_services HealthChecker.init
          (λ name, if String.eqb name "auto_save_manager"
                   then HealthChecker.ImportFailed
                          "cannot import name 'salvar_erro'"
                   else HealthChecker.Imported true) ∧
    field2 r "critical_services" "auto_save_manager"
    = Some (PDict [("status", PStr "import_error");
                   ("error", PStr "cannot import name 'salvar_erro'")]) ∧
    field2 r "runtime_tests" "auto_save_basic"
    = Some (PDict [("status", PStr "ok");
                   ("message", PStr "Auto Save functions available")]).
Proof.
  assert (Hin : "auto_save_manager"
                ∈ HealthChecker.critical_services HealthChecker.init)
    by (apply elem_of_cons; right; apply elem_of_cons; by left).
  split; [exact Hin|].
  eexists. split; [reflexivity|].
  destruct (check_all_services_accounts_for_failures
              HealthChecker.init
              (λ name, if String.eqb name "auto_save_manager"
                       then HealthChecker.ImportFailed
                              "cannot import name 'salvar_erro'"
                       else HealthChecker.Imported true))
    as (Hc & _ & _ & Hrt).
  split.
  - rewrite (Hc "auto_save_manager" Hin). reflexivity.
  - unfold field2. rewrite Hrt. reflexivity.
Defined.

Lemma check_service_import_grades_witness :
  HealthChecker._check_service_import (λ _, HealthChecker.Imported true)
    "redis_cache"
  = ("error", "Unknown service: redis_cache").
Proof.
  destruct (check_service_import_grades
              (λ _, HealthChecker.Imported true) "redis_cache")
    as (_ & Hunknown & _).
  apply Hunknown. simpl. intuition discriminate.
Defined.

(** * Properties of the BrightData client *)

Section BrightDataFacts.

Import BrightData.

Section Facts.

Context {W : Type}.
Context (datetime_now_isoformat : W → string * W).
Context (title : string → string).
Context (requests_post :
           string → pyval → list (string * pyval) → Z → M W response).

Lemma now_iso_total : total (now_iso datetime_now_isoformat).
Proof.
  intros w. unfold now_iso. destruct (datetime_now_isoformat w) as [t w'].
  by exists t, w'.
Qed.

(** The fallback items: one per data type, numbered from [i]. *)
Lemma fallback_items_spec query i data_types w :
  ∃ items w',
    fallback_items datetime_now_isoformat title query i data_types w
    = (Ret items, w') ∧
    length items = length data_types ∧
    ∀ k item, items !! k = Some item →
      field2 item "engagement_metrics" "views"
      = Some (PInt ((i + Z.of_nat k + 1) * 100)) ∧
      field2 item "engagement_metrics" "interactions"
      = Some (PInt ((i + Z.of_nat k + 1) * 20)) ∧
      field item "data_type" = PStr <$> data_types !! k ∧
      field item "query_used" = Some (PStr query) ∧
      field item "fallback" = Some (PBool true).
Proof.
  revert i w. induction data_types as [|t rest IH]; intros i w.
  - exists [], w. by repeat split.
  - simpl. unfold bind, ret.
    destruct (now_iso_total w) as (ts & w1 & ->).
    destruct (IH (i + 1) w1) as (items & w' & -> & Hlen & Hitems).
    eexists _, w'. split; [reflexivity|]. split; [simpl; by rewrite Hlen|].
    intros [|k] item Hk.
    + injection Hk as <-. simpl. rewrite Z.add_0_r. by repeat split.
    + simpl in Hk. destruct (Hitems k item Hk) as (H1 & H2 & H3 & H4 & H5).
      replace (i + Z.of_nat (S k) + 1) with (i + 1 + Z.of_nat k + 1) by lia.
      by repeat split.
Qed.

(** X21.  The fallback web data.  Whatever the clock, the fallback
    record reports [success: True] from the provider
    ["brightdata_fallback"], and holds one item for each of the first
    three requested data types, in order (the three default types when
    none or an empty list is requested); [total_found] is that number
    of items, at most three; the item at position [k] carries
    [(k+1)·100] views and [(k+1)·20] interactions and is flagged as
    fallback. *)
Theorem fallback_data_has_at_most_three_items query data_types w :
  let types := types_or data_types ["social_media"; "news"; "reviews"] in
  ∃ items w',
    _create_fallback_brightdata_data datetime_now_isoformat title query
      data_types w
    = (Ret (PDict
         [("success", PBool true);
          ("provider", PStr "brightdata_fallback");
          ("data", PList items);
          ("total_found", PInt (Z.of_nat (length items)));
          ("query", PStr query);
          ("message",
             PStr "Usando dados de análise de mercado devido à indisponibilidade da API")]),
       w') ∧
    length items = Nat.min 3 (length types) ∧
    (0 < length items)%nat ∧
    ∀ k item, items !! k = Some item →
      field2 item "engagement_metrics" "views"
      = Some (PInt ((Z.of_nat k + 1) * 100)) ∧
      field2 item "engagement_metrics" "interactions"
      = Some (PInt ((Z.of_nat k + 1) * 20)) ∧
      field item "data_type" = PStr <$> types !! k ∧
      field item "fallback" = Some (PBool true).
Proof.
  cbv zeta. unfold _create_fallback_brightdata_data, bind, ret.
  set (types := types_or data_types ["social_media"; "news"; "reviews"]).
  destruct (fallback_items_spec query 0 (take 3 types) w)
    as (items & w' & -> & Hlen & Hitems).
  exists items, w'. split; [done|].
  assert (Hne : (0 < length types)%nat).
  { unfold types, types_or. destruct data_types as [[|t ts]|]; simpl; lia. }
  rewrite length_take in Hlen.
  split; [done|]. split; [lia|].
  intros k item Hk. destruct (Hitems k item Hk) as (H1 & H2 & H3 & _ & H5).
  repeat split; try done.
  rewrite H3. rewrite lookup_take_lt; [done|].
  apply lookup_lt_Some in Hk. lia.
Qed.

Lemma process_item_fields query i :
  ∃ out,
    process_item query (PDict i) = Ret out ∧
    field out "query_used" = Some (PStr query) ∧
    field out "platform" = Some (assoc_default i "platform" (PStr "web")) ∧
    field out "sentiment" = Some (assoc_default i "sentiment" (PStr "neutral")) ∧
    field out "engagement_metrics"
    = Some (assoc_default i "engagement" (PDict [])).
Proof. eexists. split; [reflexivity|]. by repeat split. Qed.

Lemma process_items_mappings query items :
  forallb is_mapping items = true →
  ∃ outs,
    process_items query items = Ret outs ∧
    length outs = length items ∧
    ∀ k out, outs !! k = Some out → field out "query_used" = Some (PStr query).
Proof.
  induction items as [|item rest IH]; intros Hall.
  - exists []. by repeat split.
  - simpl in Hall. apply andb_true_iff in Hall as [Hi Hrest].
    destruct item; try done.
    destruct (IH Hrest) as (outs & E & Hlen & Hq).
    simpl. rewrite E. eexists. split; [reflexivity|].
    split; [simpl; by rewrite Hlen|].
    intros [|k] out Hk; [by injection Hk as <- | by apply (Hq k)].
Qed.

Lemma process_items_non_mapping query items :
  forallb is_mapping items = false →
  ∃ e, process_items query items = Raise e.
Proof.
  induction items as [|item rest IH]; intros Hall; [done|].
  simpl in Hall. apply andb_false_iff in Hall as [Hi|Hrest].
  - destruct item; try done; simpl; eauto.
  - destruct (IH Hrest) as (e & E). simpl.
    destruct (process_item query item); [|eauto]. rewrite E. eauto.
Qed.

(** X22.  Processing the service's answer.  For an answer that is a
    mapping whose [results] is a list of mappings, the record reports
    the provider ["brightdata"], one processed item per result, in
    [total_found] the number of results, and stamps every item with the
    query; an answer without [results] gives zero items.  A result that
    is not a mapping makes the processing raise an attribute error
    instead of producing a record. *)
Theorem process_results_counts_items d query items :
  assoc_default d "results" (PList []) = PList items →
  (forallb is_mapping items = true →
   ∃ outs,
     _process_brightdata_results (PDict d) query
     = Ret (PDict
         [("success", PBool true);
          ("provider", PStr "brightdata");
          ("data", PList outs);
          ("total_found", PInt (Z.of_nat (length items)));
          ("query", PStr query);
          ("data_types_collected",
             assoc_default d "data_types_found" (PList []))]) ∧
     length outs = length items ∧
     ∀ k out, outs !! k = Some out →
              field out "query_used" = Some (PStr query)) ∧
  (forallb is_mapping items = false →
   ∃ e, _process_brightdata_results (PDict d) query = Raise e).
Proof.
  intros Hres. split.
  - intros Hall.
    destruct (process_items_mappings query items Hall) as (outs & E & Hlen & Hq).
    exists outs. split; [|done].
    unfold _process_brightdata_results. simpl. rewrite Hres. simpl.
    by rewrite E, Hlen.
  - intros Hall.
    destruct (process_items_non_mapping query items Hall) as (e & E).
    exists e. unfold _process_brightdata_results. simpl. rewrite Hres. simpl.
    by rewrite E.
Qed.

(** X23.  Collecting web data never fails from the caller's point of
    view: whatever the HTTP service does (an exception, a status other
    than 200, a body that cannot be decoded or processed), the call
    returns a record with [success: True] for the query, from the
    provider ["brightdata"] or ["brightdata_fallback"].  A client
    without an API key answers with the fallback record and sends no
    request. *)
Theorem collect_web_data_always_succeeds (self : client) query data_types w :
  (∃ v w',
     collect_web_data datetime_now_isoformat title requests_post self query
       data_types w = (Ret v, w') ∧
     field v "success" = Some (PBool true) ∧
     field v "query" = Some (PStr query) ∧
     (field v "provider" = Some (PStr "brightdata") ∨
      field v "provider" = Some (PStr "brightdata_fallback"))) ∧
  (is_available self = false →
   collect_web_data datetime_now_isoformat title requests_post self query
     data_types w
   = _create_fallback_brightdata_data datetime_now_isoformat title query
       data_types w).
Proof.
  assert (Hfb : ∀ w0, ∃ v w',
    _create_fallback_brightdata_data datetime_now_isoformat title query
      data_types w0 = (Ret v, w') ∧
    field v "success" = Some (PBool true) ∧
    field v "query" = Some (PStr query) ∧
    (field v "provider" = Some (PStr "brightdata") ∨
     field v "provider" = Some (PStr "brightdata_fallback"))).
  { intros w0.
    destruct (fallback_data_has_at_most_three_items query data_types w0)
      as (items & w' & E & _).
    eexists _, w'. split; [exact E|]. repeat split. by right. }
  split.
  - unfold collect_web_data, try_catch, bind, lift.
    destruct (is_available self); simpl.
    + destruct (requests_post _ _ _ _ w) as [[resp|e] w1]; [|apply Hfb].
      destruct (status_code resp =? 200).
      * destruct (json resp) as [data|e]; [|apply Hfb].
        destruct (_process_brightdata_results data query) as [v|e] eqn:E;
          [|apply Hfb].
        exists v, w1. split; [done|].
        unfold _process_brightdata_results in E.
        repeat match type of E with
               | match ?x with _ => _ end = _ => destruct x; try done
               end.
        injection E as <-. repeat split. by left.
      * destruct (Hfb w1) as (v & w' & -> & H). by exists v, w'.
    + destruct (Hfb w) as (v & w' & -> & H). by exists v, w'.
  - intros Hna. unfold collect_web_data, try_catch. rewrite Hna. simpl.
    by destruct (Hfb w) as (v & w' & -> & _).
Qed.

(** The three posts invented for a platform. *)
Lemma fallback_posts_three query platform w :
  ∃ posts w',
    fallback_posts datetime_now_isoformat query platform 0 3 w
    = (Ret posts, w') ∧
    length posts = 3%nat ∧
    engagement_sum posts = 60.
Proof.
  simpl. unfold bind, ret.
  destruct (now_iso_total w) as (t1 & w1 & ->).
  destruct (now_iso_total w1) as (t2 & w2 & ->).
  destruct (now_iso_total w2) as (t3 & w3 & ->).
  eexists _, w3. by repeat split.
Qed.

(** The platform loop, from any accumulated state. *)
Lemma fallback_social_loop_spec query platforms social_data total w :
  ∃ social_data' w',
    fallback_social_loop datetime_now_isoformat query platforms social_data
      total w
    = (Ret (social_data', total + 3 * Z.of_nat (length platforms)), w') ∧
    ∀ p,
      if bool_decide (p ∈ platforms) then
        ∃ posts,
          assoc_get social_data' p
          = Some (PDict [("posts", PList posts);
                         ("count", PInt 3);
                         ("avg_engagement",
                            PFloat (inject_Z 60 / inject_Z 3)%Q)]) ∧
          length posts = 3%nat
      else assoc_get social_data' p = assoc_get social_data p.
Proof.
  revert social_data total w.
  induction platforms as [|pl rest IH]; intros social_data total w.
  - exists social_data, w. split; [simpl; unfold ret; do 2 f_equal; f_equal; lia|].
    intros p. by rewrite bool_decide_eq_false_2 by (apply not_elem_of_nil).
  - cbn [fallback_social_loop]. unfold bind at 1.
    destruct (fallback_posts_three query pl w) as (posts & w1 & -> & Hlen & Hsum).
    rewrite Hlen, Hsum.
    change (Z.of_nat 3) with 3.
    destruct (IH (assoc_set social_data pl
                    (PDict [("posts", PList posts); ("count", PInt 3);
                            ("avg_engagement",
                               PFloat (inject_Z 60 / inject_Z 3)%Q)]))
                 (total + 3) w1) as (sd' & w' & -> & Hsd).
    exists sd', w'. split.
    + do 2 f_equal. f_equal. simpl length. lia.
    + intros p. specialize (Hsd p).
      destruct (decide (pl = p)) as [->|Hne].
      * rewrite (bool_decide_eq_true_2 (p ∈ p :: rest))
          by (apply elem_of_cons; by left).
        destruct (bool_decide (p ∈ rest)); [done|].
        rewrite Hsd, assoc_get_set_eq. eauto.
      * rewrite assoc_get_set_ne in Hsd by done.
        destruct (bool_decide (p ∈ rest)) eqn:Hin.
        -- apply bool_decide_eq_true_1 in Hin.
           rewrite bool_decide_eq_true_2 by (apply elem_of_cons; by right).
           done.
        -- apply bool_decide_eq_false_1 in Hin.
           rewrite bool_decide_eq_false_2; [done|].
           intros [->|?]%elem_of_cons; done.
Qed.

(** X24.  The fallback social data.  The record reports
    [success: True] and, in [total_posts], three posts for every
    requested platform, repeated names counted each time; under
    [platforms_data] every requested platform has an entry with three
    posts, a count of 3 and an average engagement of 60/3 = 20, and no
    other platform has one. *)
Theorem fallback_social_data_three_posts_per_platform query platforms w :
  ∃ social_data w',
    _create_fallback_social_data datetime_now_isoformat query platforms w
    = (Ret (PDict
         [("success", PBool true);
          ("provider", PStr "brightdata_fallback");
          ("platforms_data", PDict social_data);
          ("total_posts", PInt (3 * Z.of_nat (length platforms)));
          ("query", PStr query);
          ("message",
             PStr "Dados simulados - configure BrightData API para dados reais")]),
       w') ∧
    (∀ p, p ∈ platforms →
       ∃ posts avg,
         assoc_get social_data p
         = Some (PDict [("posts", PList posts); ("count", PInt 3);
                        ("avg_engagement", PFloat avg)]) ∧
         length posts = 3%nat ∧ (avg == 20)%Q) ∧
    (∀ p, p ∉ platforms → assoc_get social_data p = None).
Proof.
  unfold _create_fallback_social_data, bind, ret.
  destruct (fallback_social_loop_spec query platforms [] 0 w)
    as (sd & w' & -> & Hsd).
  exists sd, w'. split; [done|]. split.
  - intros p Hp. specialize (Hsd p).
    rewrite bool_decide_eq_true_2 in Hsd by done.
    destruct Hsd as (posts & E & Hlen).
    exists posts, (inject_Z 60 / inject_Z 3)%Q. by repeat split.
  - intros p Hp. specialize (Hsd p).
    by rewrite bool_decide_eq_false_2 in Hsd by done.
Qed.

End Facts.

End BrightDataFacts.

Lemma fallback_data_has_at_most_three_items_witness :
  ∃ items w',
    (BrightData._create_fallback_brightdata_data
       (datetime_now_isoformat Scenario.bare_env) id "fitness"
       (Some ["news"; "forums"; "reviews"; "blogs"]) Scenario.w0).1
    = Ret (PDict
        [("success", PBool true);
         ("provider", PStr "brightdata_fallback");
         ("data", PList items);
         ("total_found", PInt (Z.of_nat (length items)));
         ("query", PStr "fitness");
         ("message",
            PStr "Usando dados de análise de mercado devido à indisponibilidade da API")]) ∧
    w' = Scenario.w0 ∧
    length items = 3%nat ∧
    ∀ item, items !! 1%nat = Some item →
            field2 item "engagement_metrics" "views" = Some (PInt 200).
Proof.
  destruct (fallback_data_has_at_most_three_items
              (datetime_now_isoformat Scenario.bare_env) id "fitness"
              (Some ["news"; "forums"; "reviews"; "blogs"]) Scenario.w0)
    as (items & w' & E & Hlen & _ & Hitems).
  exists items, Scenario.w0. rewrite E. split; [reflexivity|].
  split; [reflexivity|]. split; [exact Hlen|].
  intros item Hi. by destruct (Hitems 1%nat item Hi) as (Hv & _).
Defined.

Lemma process_results_counts_items_witness :
  ∃ outs,
    BrightData._process_brightdata_results
      (PDict [("results",
                 PList [PDict [("url", PStr "https://example.com")]; PDict []])])
      "fitness"
    = Ret (PDict
        [("success", PBool true);
         ("provider", PStr "brightdata");
         ("data", PList outs);
         ("total_found", PInt 2);
         ("query", PStr "fitness");
         ("data_types_collected", PList [])]) ∧
    length outs = 2%nat.
Proof.
  destruct (process_results_counts_items
              [("results",
                  PList [PDict [("url", PStr "https://example.com")]; PDict []])]
              "fitness"
              [PDict [("url", PStr "https://example.com")]; PDict []] eq_refl)
    as (Hok & _).
  destruct (Hok eq_refl) as (outs & E & Hlen & _).
  exists outs. split; [exact E | exact Hlen].
Defined.

Lemma collect_web_data_always_succeeds_witness :
  BrightData.is_available (BrightData.init (λ _, None)) = false ∧
  BrightData.collect_web_data (datetime_now_isoformat Scenario.bare_env) id
    (λ _ _ _ _ w, (Raise "connection refused", w))
    (BrightData.init (λ _, None)) "fitness" None Scenario.w0
  = BrightData._create_fallback_brightdata_data
      (datetime_now_isoformat Scenario.bare_env) id "fitness" None Scenario.w0.
Proof.
  split; [reflexivity|].
  destruct (collect_web_data_always_succeeds
              (datetime_now_isoformat Scenario.bare_env) id
              (λ _ _ _ _ w, (Raise "connection refused", w))
              (BrightData.init (λ _, None)) "fitness" None Scenario.w0)
    as (_ & Hna).
  apply Hna. reflexivity.
Defined.

Lemma fallback_social_data_three_posts_per_platform_witness :
  "youtube" ∈ ["youtube"; "linkedin"; "youtube"] ∧
  ∃ social_data w',
    BrightData._create_fallback_social_data
      (datetime_now_isoformat Scenario.bare_env) "fitness"
      ["youtube"; "linkedin"; "youtube"] Scenario.w0
    = (Ret (PDict
         [("success", PBool true);
          ("provider", PStr "brightdata_fallback");
          ("platforms_data", PDict social_data);
          ("total_posts", PInt 9);
          ("query", PStr "fitness");
          ("message",
             PStr "Dados simulados - configure BrightData API para dados reais")]),
       w') ∧
    ∃ posts avg,
      assoc_get social_data "youtube"
      = Some (PDict [("posts", PList posts); ("count", PInt 3);
                     ("avg_engagement", PFloat avg)]).
Proof.
  assert (Hin : "youtube" ∈ ["youtube"; "linkedin"; "youtube"])
    by (apply elem_of_cons; by left).
  split; [exact Hin|].
  destruct (fallback_social_data_three_posts_per_platform
              (datetime_now_isoformat Scenario.bare_env) "fitness"
              ["youtube"; "linkedin"; "youtube"] Scenario.w0)
    as (sd & w' & E & Hsd & _).
  exists sd, w'. split; [exact E|].
  destruct (Hsd "youtube" Hin) as (posts & avg & Ep & _).
  by exists posts, avg.
Defined.
